(** * Seoul real-estate dashboard: the data pipeline of [app.py]

    A shallow embedding of [load_and_process_data] (app.py, lines 37-93) and
    of the pandas operations it calls, with the properties of the pipeline
    proved over it.

    - Python [str] values are sequences of Unicode code points.
    - Python [float] values and the float64 columns of pandas are IEEE 754
      binary64 numbers: [spec_float] with precision 53 and exponent bound
      1024, rounded to nearest even.
    - The int64 columns of pandas are integers added modulo 2^64.
    - Exceptions are values of a result type; [try ... except Exception] is a
      function on results. *)

From Stdlib Require Import ZArith NArith List Bool Lia.
From Stdlib Require Import Strings.String Strings.Ascii.
From Stdlib Require Import Numbers.DecimalString Numbers.DecimalZ.
From Stdlib Require Import Floats.SpecFloat Sorting.Sorted.
From Stdlib Require Import Sorting.Permutation.
Import ListNotations.

(** ** Python strings *)

Module Py.

(** A [str] is the list of its code points. *)
Definition str := list N.

(** Source literals are written as UTF-8 text and decoded to code points. *)
Fixpoint utf8_decode (bs : list N) : str :=
  match bs with
  | [] => []
  | b0 :: r0 =>
    if (b0 <? 128)%N then b0 :: utf8_decode r0
    else
      match r0 with
      | [] => [b0]
      | b1 :: r1 =>
        if (b0 <? 224)%N
        then ((b0 mod 32) * 64 + b1 mod 64)%N :: utf8_decode r1
        else
          match r1 with
          | [] => [b0; b1]
          | b2 :: r2 =>
            if (b0 <? 240)%N
            then ((b0 mod 16) * 4096 + (b1 mod 64) * 64 + b2 mod 64)%N
                   :: utf8_decode r2
            else
              match r2 with
              | [] => [b0; b1; b2]
              | b3 :: r3 =>
                ((b0 mod 8) * 262144 + (b1 mod 64) * 4096
                 + (b2 mod 64) * 64 + b3 mod 64)%N :: utf8_decode r3
              end
          end
      end
  end.

Definition lit (s : string) : str :=
  utf8_decode (map N_of_ascii (list_ascii_of_string s)).

(** [a == b] *)
Fixpoint eqb (a b : str) : bool :=
  match a, b with
  | [], [] => true
  | x :: a', y :: b' => (x =? y)%N && eqb a' b'
  | _, _ => false
  end.

(** [prefix k s]: [s.startswith(k)]. *)
Fixpoint prefix (k s : str) : bool :=
  match k, s with
  | [], _ => true
  | _ :: _, [] => false
  | a :: k', b :: s' => (a =? b)%N && prefix k' s'
  end.

(** [contains k s]: the Python test [k in s] on two strings. *)
Fixpoint contains (k s : str) : bool :=
  prefix k s ||
  match s with
  | [] => false
  | _ :: s' => contains k s'
  end.

(** [str.isspace] on one code point, the table of CPython's
    [_PyUnicode_IsWhitespace]. *)
Definition isspace (c : N) : bool :=
  ((9 <=? c) && (c <=? 13) || (28 <=? c) && (c <=? 32)
   || (c =? 133) || (c =? 160) || (c =? 5760)
   || (8192 <=? c) && (c <=? 8202)
   || (c =? 8232) || (c =? 8233) || (c =? 8239) || (c =? 8287)
   || (c =? 12288))%N.

Fixpoint lstrip (s : str) : str :=
  match s with
  | [] => []
  | c :: s' => if isspace c then lstrip s' else s
  end.

Definition rstrip (s : str) : str := rev (lstrip (rev s)).

(** [s.strip()]. *)
Definition strip (s : str) : str := rstrip (lstrip s).

(** [s] starts with white space. *)
Definition leading_space (s : str) : bool :=
  match s with
  | [] => false
  | c :: _ => isspace c
  end.

(** [a <= b]: strings are compared code point by code point, a proper
    prefix coming first. *)
Fixpoint leb (a b : str) : bool :=
  match a, b with
  | [], _ => true
  | _ :: _, [] => false
  | x :: a', y :: b' => (x <? y)%N || ((x =? y)%N && leb a' b')
  end.

(** [str(n)] for an [int]. *)
Definition of_int (n : Z) : str :=
  map N_of_ascii (list_ascii_of_string (NilZero.string_of_int (Z.to_int n))).

(** [int(s)] for a plain decimal numeral, the only form the pipeline
    converts; anything else is refused. *)
Definition to_int (s : str) : option Z :=
  if forallb (fun c => (c <? 256)%N) s
  then option_map Z.of_int
         (NilZero.int_of_string (string_of_list_ascii (map ascii_of_N s)))
  else None.

End Py.

Arguments Py.lit s%_string.

(** ** Floats *)

(** Python's [float] and the float64 columns of pandas.  A number of the
    workbook is a binary64 value; [of_Z] is the conversion of an integer to
    float64, exact below 2^53 and rounded to nearest even above. *)
Definition float := spec_float.

Definition prec : Z := 53.
Definition emax : Z := 1024.

Definition fadd : float -> float -> float := SFadd prec emax.
Definition fmul : float -> float -> float := SFmul prec emax.
Definition fdiv : float -> float -> float := SFdiv prec emax.
Definition of_Z (z : Z) : float := binary_normalize prec emax z 0 false.

Definition nan : float := S754_nan.
Definition zero : float := S754_zero false.

(** The literals [0.4], [0.6], [0.8] and [100] of the source. *)
Definition f0_4 : float := S754_finite false 7205759403792794 (-54).
Definition f0_6 : float := S754_finite false 5404319552844595 (-53).
Definition f0_8 : float := S754_finite false 7205759403792794 (-53).
Definition f100 : float := S754_finite false 7036874417766400 (-46).

(** [0 <= x], [x == 0] and [math.isfinite(x)] as IEEE comparisons. *)
Definition nonneg (x : float) : bool := SFleb zero x.
Definition is_zero (x : float) : bool := SFeqb x zero.
Definition is_nan (x : float) : bool :=
  match x with S754_nan => true | _ => false end.
Definition is_finite (x : float) : bool :=
  match x with S754_zero _ | S754_finite _ _ _ => true | _ => false end.

(** ** Integers *)

(** A column that holds integers only is an int64 column, and pandas adds
    its cells as 64-bit integers, which wrap around. *)
Inductive dtype :=
| Int64
| Float64.

(** The integer value of a cell that holds an integer. *)
Definition to_Z (x : float) : Z :=
  match x with
  | S754_finite s m e =>
    cond_Zopp s (match e with
                 | Z0 => Zpos m
                 | Zpos p => Zpos m * 2 ^ Zpos p
                 | Zneg p => Zpos m / 2 ^ Zpos p
                 end)
  | _ => 0
  end%Z.

Definition is_integer (x : float) : bool :=
  match x with
  | S754_zero _ => true
  | S754_finite _ m e =>
    match e with
    | Zneg p => (Zpos m mod 2 ^ Zpos p =? 0)%Z
    | _ => true
    end
  | _ => false
  end.

Definition fits_int64 (z : Z) : bool :=
  ((- 2 ^ 63 <=? z) && (z <? 2 ^ 63))%Z.

(** The cell holds an integer that an int64 column can store. *)
Definition int64_cell (x : float) : bool :=
  is_integer x && fits_int64 (to_Z x).

(** Two's complement: the representative of [z] modulo 2^64 in
    [-2^63, 2^63). *)
Definition wrap64 (z : Z) : Z := ((z + 2 ^ 63) mod 2 ^ 64 - 2 ^ 63)%Z.

(** [a + b] on int64. *)
Definition add_int64 (a b : Z) : Z := wrap64 (a + b).

(** ** Labels, exceptions *)

(** A column label of a DataFrame: text, or an integer header such as a year
    read from a numeric cell. *)
Inductive label :=
| LStr (s : Py.str)
| LInt (n : Z).

Definition label_eqb (a b : label) : bool :=
  match a, b with
  | LStr s, LStr t => Py.eqb s t
  | LInt n, LInt m => (n =? m)%Z
  | _, _ => false
  end.

(** The order in which pandas sorts labels: integers by value, before the
    strings, and strings as Python compares them. *)
Definition label_leb (a b : label) : bool :=
  match a, b with
  | LInt n, LInt m => (n <=? m)%Z
  | LInt _, LStr _ => true
  | LStr _, LInt _ => false
  | LStr s, LStr t => Py.leb s t
  end.

(** Sorting by an order. *)
Fixpoint insert {A : Type} (leb : A -> A -> bool) (x : A) (l : list A)
  : list A :=
  match l with
  | [] => [x]
  | y :: l' => if leb x y then x :: l else y :: insert leb x l'
  end.

Definition sort {A : Type} (leb : A -> A -> bool) (l : list A) : list A :=
  fold_right (insert leb) [] l.

(** [str(c)] *)
Definition str_of (c : label) : Py.str :=
  match c with
  | LStr s => s
  | LInt n => Py.of_int n
  end.

(** [c in labels] *)
Definition mem (c : label) (labels : list label) : bool :=
  existsb (label_eqb c) labels.

Inductive exn :=
| FileNotFoundError
| KeyError (key : label)
| ValueError (msg : string)
| MergeError.

Inductive result (A : Type) :=
| Ok (a : A)
| Raise (e : exn).
Arguments Ok {A} a.
Arguments Raise {A} e.

Definition bind {A B} (m : result A) (k : A -> result B) : result B :=
  match m with
  | Ok a => k a
  | Raise e => Raise e
  end.

Notation "x <- m ;; k" := (bind m (fun x => k))
  (at level 61, m at next level, right associativity).

(** ** The population workbook *)

(** The sheet [data/population_2023.xlsx] as [pd.read_excel] returns it, in
    the long format of the source: one row per district, gender and age
    bracket, with the three key columns the pipeline names and one column of
    counts per year.  A count is the number of its cell, and a missing count
    is NaN, as pandas reads an empty cell. *)
Record Row := {
  district : Py.str;      (* column '행정구역(시군구)별' *)
  gender : Py.str;        (* column '성별' *)
  age : label;            (* column '연령별' *)
  counts : list float     (* one count per year column, in header order *)
}.

Record Sheet := {
  years : list label;     (* the labels of the year columns *)
  rows : list Row
}.

Definition col_district : label := LStr (Py.lit "행정구역(시군구)별").
Definition col_gender : label := LStr (Py.lit "성별").
Definition col_age : label := LStr (Py.lit "연령별").

(** [df.columns] *)
Definition columns (df : Sheet) : list label :=
  col_district :: col_gender :: col_age :: years df.

(** The file on disk: absent or unreadable, or a workbook. *)
Inductive File :=
| Missing
| Workbook (df : Sheet).

Definition read_excel (f : File) : result Sheet :=
  match f with
  | Missing => Raise FileNotFoundError
  | Workbook df => Ok df
  end.

(** [df_pop_raw[df_pop_raw['성별'] == '계']] *)
Definition total_gender : Py.str := Py.lit "계".

Definition filter_gender (df : Sheet) : Sheet :=
  {| years := years df;
     rows := filter (fun r => Py.eqb (gender r) total_gender) (rows df) |}.

(** Lines 44-45: the label of the year column. *)
Definition py_int (s : Py.str) : result Z :=
  match Py.to_int s with
  | Some n => Ok n
  | None => Raise (ValueError "invalid literal for int()")
  end.

Definition target_year (cols : list label) : result label :=
  let target :=
    if existsb (Py.eqb (Py.lit "2024")) (map str_of cols)
    then Py.lit "2024" else Py.lit "2023" in
  if negb (mem (LStr target) cols)
  then n <- py_int target ;; Ok (LInt n)
  else Ok (LStr target).

(** The sheet has a year column whose label reads [y]. *)
Definition labelled (y : Py.str) (df : Sheet) : Prop :=
  exists c, In c (years df) /\ str_of c = y.

(** ** pivot *)

(** Position of a year column; [df[values]] raises [KeyError] without it. *)
Fixpoint position (c : label) (labels : list label) : option nat :=
  match labels with
  | [] => None
  | l :: labels' =>
    if label_eqb c l then Some 0%nat
    else option_map S (position c labels')
  end.

Definition values_column (df : Sheet) (c : label) : result (list float) :=
  match position c (years df) with
  | Some i => Ok (map (fun r => nth i (counts r) nan) (rows df))
  | None => Raise (KeyError c)
  end.

(** The dtype [pd.read_excel] gives a column of counts: int64 when every
    cell of the column holds an integer, float64 as soon as one is empty or
    fractional.  (Integers beyond int64 make other dtypes, which are not
    told apart from float64 here.) *)
Definition column_dtype (vals : list float) : dtype :=
  if forallb int64_cell vals then Int64 else Float64.

(** [df[c].dtype] *)
Definition dtype_of (df : Sheet) (c : label) : dtype :=
  match values_column df c with
  | Ok vals => column_dtype vals
  | Raise _ => Float64
  end.

(** The pivoted table: one row per index key, one cell per column label,
    all of one dtype.  The cells are given by their values. *)
Record Pivot := {
  pdtype : dtype;
  pcolumns : list label;
  prows : list (Py.str * list float)
}.

Definition str_dec : forall a b : Py.str, {a = b} + {a <> b} :=
  list_eq_dec N.eq_dec.

Definition label_dec : forall a b : label, {a = b} + {a <> b}.
Proof. decide equality; [apply str_dec | apply Z.eq_dec]. Defined.

Definition key_eqb (k1 k2 : Py.str * label) : bool :=
  Py.eqb (fst k1) (fst k2) && label_eqb (snd k1) (snd k2).

(** Two rows with the same district and age bracket. *)
Fixpoint duplicated (keys : list (Py.str * label)) : bool :=
  match keys with
  | [] => false
  | k :: keys' => existsb (key_eqb k) keys' || duplicated keys'
  end.

Fixpoint cell (keys : list (Py.str * label)) (vals : list float)
  (d : Py.str) (a : label) : float :=
  match keys, vals with
  | k :: keys', v :: vals' =>
    if key_eqb k (d, a) then v else cell keys' vals' d a
  | _, _ => nan
  end.

(** [df.pivot(index='행정구역(시군구)별', columns='연령별', values=c)],
    where [dt] is the dtype the column [c] has in [df].  The index and the
    columns of the result are the distinct keys in sorted order.  The result
    keeps the dtype when every district has a row for every age label; a
    missing combination is an empty cell (NaN) and makes the table
    float64. *)
Definition pivot (dt : dtype) (df : Sheet) (c : label) : result Pivot :=
  vals <- values_column df c ;;
  let keys := map (fun r => (district r, age r)) (rows df) in
  if duplicated keys
  then Raise (ValueError "Index contains duplicate entries, cannot reshape")
  else
    let cols := sort label_leb (nodup label_dec (map age (rows df))) in
    let index := sort Py.leb (nodup str_dec (map district (rows df))) in
    let complete :=
      forallb (fun d => forallb (fun a => existsb (key_eqb (d, a)) keys) cols)
              index in
    Ok {| pdtype := match dt with
                    | Int64 => if complete then Int64 else Float64
                    | Float64 => Float64
                    end;
          pcolumns := cols;
          prows := map (fun d => (d, map (cell keys vals d) cols)) index |}.

(** [df_pivot.index = df_pivot.index.str.strip()] *)
Definition strip_index (p : Pivot) : Pivot :=
  {| pdtype := pdtype p;
     pcolumns := pcolumns p;
     prows := map (fun r => (Py.strip (fst r), snd r)) (prows p) |}.

(** ** Age brackets and youth estimates *)

(** [any(k in str(c) for k in keyword_list)] *)
Definition matches (keyword_list : list Py.str) (c : label) : bool :=
  existsb (fun k => Py.contains k (str_of c)) keyword_list.

(** [target_cols] of [get_sum]. *)
Definition target_cols (keyword_list : list Py.str) (cols : list label)
  : list label :=
  filter (matches keyword_list) cols.

(** The cells of one row under the selected columns: a row of
    [df_pivot[target_cols]]. *)
Fixpoint select (keyword_list : list Py.str) (cols : list label)
  (cells : list float) : list float :=
  match cols, cells with
  | c :: cols', v :: cells' =>
    if matches keyword_list c
    then v :: select keyword_list cols' cells'
    else select keyword_list cols' cells'
  | _, _ => []
  end.

(** [.sum(axis=1)] on one row.  In an int64 table the cells are added as
    64-bit integers, and the sum enters float arithmetic afterwards, at the
    first float it meets.  In a float64 table NaN cells are skipped (counted
    as 0) and the others are added in column order.  The empty sum is 0. *)
Definition fillna0 (x : float) : float := if is_nan x then zero else x.

Definition row_sum (dt : dtype) (cells : list float) : float :=
  match dt with
  | Int64 => of_Z (fold_left add_int64 (map to_Z cells) 0%Z)
  | Float64 => fold_left fadd (map fillna0 cells) zero
  end.

(** [get_sum(keyword_list)], the value of the returned Series at one row of
    a table of dtype [dt]. *)
Definition get_sum (dt : dtype) (keyword_list : list Py.str)
  (cols : list label) (cells : list float) : float :=
  row_sum dt (select keyword_list cols cells).

Definition kw_0_4 : Py.str := Py.lit "0 - 4세".
Definition kw_5_9 : Py.str := Py.lit "5 - 9세".
Definition kw_10_14 : Py.str := Py.lit "10 - 14세".
Definition kw_15_19 : Py.str := Py.lit "15 - 19세".
Definition col_total : label := LStr (Py.lit "계").

(** One district of [df_pivot] after lines 65-80.  [brackets] are the
    pivoted counts of the district under [pcolumns]. *)
Record District := {
  name : Py.str;
  brackets : list float;
  infant : float;
  elementary : float;
  adolescent : float;
  total_pop : float;
  ratio_infant : float;
  ratio_elem : float;
  ratio_adol : float;
  ratio_total_youth : float
}.

(** Lines 65-80 at one row of a table of dtype [dt]; [total_at] is the
    position of the column ['계'] that [df_pivot['계']] reads. *)
Definition estimate (dt : dtype) (cols : list label) (total_at : nat)
  (r : Py.str * list float) : District :=
  let cells := snd r in
  let col_0_4 := get_sum dt [kw_0_4] cols cells in
  let col_5_9 := get_sum dt [kw_5_9] cols cells in
  let col_10_14 := get_sum dt [kw_10_14] cols cells in
  let col_15_19 := get_sum dt [kw_15_19] cols cells in
  let infant := fadd col_0_4 (fmul col_5_9 f0_4) in
  let elementary := fadd (fmul col_5_9 f0_6) (fmul col_10_14 f0_6) in
  let adolescent := fadd (fmul col_10_14 f0_4) (fmul col_15_19 f0_8) in
  let total_pop := nth total_at cells nan in
  let ratio_infant := fmul (fdiv infant total_pop) f100 in
  let ratio_elem := fmul (fdiv elementary total_pop) f100 in
  let ratio_adol := fmul (fdiv adolescent total_pop) f100 in
  {| name := fst r;
     brackets := cells;
     infant := infant;
     elementary := elementary;
     adolescent := adolescent;
     total_pop := total_pop;
     ratio_infant := ratio_infant;
     ratio_elem := ratio_elem;
     ratio_adol := ratio_adol;
     ratio_total_youth := fadd (fadd ratio_infant ratio_elem) ratio_adol |}.

(** Lines 52-80 on the whole table; [df_pivot['계']] raises [KeyError]
    when no column is labelled ['계']. *)
Definition estimates (p : Pivot) : result (list District) :=
  match position col_total (pcolumns p) with
  | Some i => Ok (map (estimate (pdtype p) (pcolumns p) i) (prows p))
  | None => Raise (KeyError col_total)
  end.

(** ** Reference tables and merge *)

(** A Python [dict] from district name to a number, as the list of its
    items in insertion order. *)
Definition Table := list (Py.str * Z).

Definition PRICE_DATA_2024 : Table :=
  [ (Py.lit "강남구", 8150); (Py.lit "서초구", 7720); (Py.lit "용산구", 6250);
    (Py.lit "송파구", 5980); (Py.lit "성동구", 5250); (Py.lit "마포구", 4700);
    (Py.lit "광진구", 4450); (Py.lit "양천구", 4400); (Py.lit "영등포구", 4150);
    (Py.lit "강동구", 4100); (Py.lit "동작구", 4000); (Py.lit "중구", 3850);
    (Py.lit "종로구", 3700); (Py.lit "서대문구", 3500); (Py.lit "동대문구", 3350);
    (Py.lit "성북구", 3150); (Py.lit "강서구", 3100); (Py.lit "관악구", 3000);
    (Py.lit "은평구", 2950); (Py.lit "구로구", 2850); (Py.lit "노원구", 2800);
    (Py.lit "중랑구", 2650); (Py.lit "강북구", 2600); (Py.lit "금천구", 2550);
    (Py.lit "도봉구", 2450) ]%Z.

Definition ACADEMY_DATA : Table :=
  [ (Py.lit "강남구", 2578); (Py.lit "양천구", 1050); (Py.lit "송파구", 1155);
    (Py.lit "서초구", 1187); (Py.lit "노원구", 739); (Py.lit "강동구", 680);
    (Py.lit "성북구", 550); (Py.lit "마포구", 520); (Py.lit "강서구", 600);
    (Py.lit "은평구", 538); (Py.lit "동작구", 450); (Py.lit "영등포구", 430);
    (Py.lit "서대문구", 370); (Py.lit "광진구", 390); (Py.lit "동대문구", 350);
    (Py.lit "관악구", 380); (Py.lit "성동구", 320); (Py.lit "구로구", 340);
    (Py.lit "중랑구", 300); (Py.lit "도봉구", 290); (Py.lit "강북구", 220);
    (Py.lit "금천구", 200); (Py.lit "용산구", 180); (Py.lit "종로구", 230);
    (Py.lit "중구", 150) ]%Z.

(** A row of the merged frame, by its values.  Under which names the frame
    carries its columns is not part of the record. *)
Record Merged := {
  region : Py.str;
  price : Z;
  pop : District;
  academy_count : Z
}.

(** [pd.merge(..., how='inner')] on one key: every left row with every
    right row of the same key, in left order. *)
Definition join {A B C : Type} (ka : A -> Py.str) (kb : B -> Py.str)
  (mk : A -> B -> C) (la : list A) (lb : list B) : list C :=
  flat_map (fun a => map (mk a) (filter (fun b => Py.eqb (ka a) (kb b)) lb)) la.

(** [pd.merge(df_price, df_pivot, left_on='region', right_index=True,
    how='inner')] *)
Definition merge_price (df_price : Table) (df_pivot : list District)
  : list (Py.str * Z * District) :=
  join fst name (fun kv d => (fst kv, snd kv, d)) df_price df_pivot.

(** [pd.merge(merged, df_academy, on='region', how='inner')] *)
Definition merge_academy (merged : list (Py.str * Z * District))
  (df_academy : Table) : list Merged :=
  join (fun m => fst (fst m)) fst
       (fun m kv => {| region := fst (fst m); price := snd (fst m);
                       pop := snd m; academy_count := snd kv |})
       merged df_academy.

(** Age labels are data, and one that reads ['region'], ['price'] or
    ['academy_count'] meets a column of that name in a merge.  pandas then
    renames the two columns, with the suffix [_x] on the left and [_y] on
    the right, and joins the same rows; it raises [MergeError] when a column
    so renamed meets one of its own side that bore the new name already. *)
Definition renamed_meets (name suffix : string) (cols : list label) : bool :=
  mem (LStr (Py.lit name)) cols
  && mem (LStr (Py.lit name ++ Py.lit suffix)) cols.

(** The first merge has the pivoted table on the right, the second has it
    on the left. *)
Definition price_clash (cols : list label) : bool :=
  renamed_meets "region" "_y" cols || renamed_meets "price" "_y" cols.

Definition academy_clash (cols : list label) : bool :=
  renamed_meets "academy_count" "_x" cols.

(** Lines 83-87; [cols] are the age labels of the pivoted table. *)
Definition merge (df_price df_academy : Table) (cols : list label)
  (df_pivot : list District) : result (list Merged) :=
  if price_clash cols then Raise MergeError
  else
    let merged := merge_price df_price df_pivot in
    if academy_clash cols then Raise MergeError
    else Ok (merge_academy merged df_academy).

(** ** The pipeline *)

(** Lines 41-48: the pivoted population table with trimmed index.  The
    selection of line 42 keeps the dtype each column was read with. *)
Definition load_pivot (f : File) : result Pivot :=
  df_pop_raw <- read_excel f ;;
  let df_pop := filter_gender df_pop_raw in
  year <- target_year (columns df_pop) ;;
  df_pivot <- pivot (dtype_of df_pop_raw year) df_pop year ;;
  Ok (strip_index df_pivot).

Section Pipeline.

Variables df_price df_academy : Table.

(** The body of the [try] block, lines 41-89. *)
Definition process (f : File) : result (list Merged) :=
  df_pivot <- load_pivot f ;;
  districts <- estimates df_pivot ;;
  merge df_price df_academy (pcolumns df_pivot) districts.

(** What a call of the function does: it returns a frame (the list of its
    rows) after showing messages with [st.error], or an exception leaves
    it. *)
Inductive outcome :=
| Returns (df : list Merged) (shown : list exn)
| Propagates (e : exn).

(** The classes caught by [except Exception]: [FileNotFoundError] (an
    [OSError]), [KeyError] (a [LookupError]), [ValueError] and [MergeError]
    (a [ValueError]) all derive from [Exception]. *)
Definition is_Exception (e : exn) : bool :=
  match e with
  | FileNotFoundError => true
  | KeyError _ => true
  | ValueError _ => true
  | MergeError => true
  end.

(** [try: ... except Exception as e: st.error(...); return pd.DataFrame()] *)
Definition load_and_process_data (f : File) : outcome :=
  match process f with
  | Ok merged => Returns merged []
  | Raise e => if is_Exception e then Returns [] [e] else Propagates e
  end.

End Pipeline.

(** [df_pivot[c]] at one row: the cell under the column labelled [c]. *)
Definition at_label (cols : list label) (cells : list float) (c : label)
  : float :=
  match position c cols with
  | Some i => nth i cells nan
  | None => nan
  end.

(** The count of one bracket at a row of the pivoted table, as the code
    takes it. *)
Definition bracket (dt : dtype) (kw : Py.str) (cols : list label)
  (cells : list float) : float :=
  get_sum dt [kw] cols cells.

(** The count of one bracket as the specification words it: the sum of the
    cells under the columns whose label contains the keyword. *)
Definition count_of (dt : dtype) (kw : Py.str) (cols : list label)
  (cells : list float) : float :=
  row_sum dt (map (at_label cols cells)
                  (filter (fun c => Py.contains kw (str_of c)) cols)).

(** The four keywords of lines 65-68. *)
Definition keywords : list Py.str := [kw_0_4; kw_5_9; kw_10_14; kw_15_19].

(** [s] has [kw] inside: the substring relation, by concatenation. *)
Definition has_inside (kw s : Py.str) : Prop :=
  exists pre suf, s = pre ++ kw ++ suf.


(** The sum of integers, as mathematics has it. *)
Definition total (zs : list Z) : Z := fold_right Z.add 0%Z zs.


(** The exact sum of the integer cells that [get_sum] selects. *)
Definition exact_count (kw : Py.str) (cols : list label)
  (cells : list float) : Z :=
  total (map to_Z (select [kw] cols cells)).

(** A count that is there and not negative, or missing. *)
Definition count_ok (c : float) : Prop :=
  nonneg c = true \/ is_nan c = true.


(** Counts that are not negative give estimates that are not negative, as
    the specification has it, at a pivoted table. *)
Definition nonneg_preserved (p : Pivot) : Prop :=
  forall ds d,
    estimates p = Ok ds ->
    In d ds ->
    Forall count_ok (brackets d) ->
    nonneg (infant d) = true /\
    nonneg (elementary d) = true /\
    nonneg (adolescent d) = true.

(** ** Spacing of labels *)

(** The text without its white space. *)
Definition despace (s : Py.str) : Py.str :=
  filter (fun c => negb (Py.isspace c)) s.

(** [s] writes the bracket of [kw] with another spacing: the same
    characters, white space apart, and not merely the keyword with white
    space around it. *)
Definition respaced (kw s : Py.str) : Prop :=
  despace s = despace kw /\ Py.strip s <> kw.

(** [s] is the label of something else: even with all white space removed
    the keyword is not inside it. *)
Definition foreign (kw s : Py.str) : Prop :=
  Py.contains (despace kw) (despace s) = false.

(** ** Statements about the merged frame *)

(** [d in names] *)
Definition inb (d : Py.str) (names : list Py.str) : bool :=
  existsb (Py.eqb d) names.

(** The district names of the pivoted population table. *)
Definition population_names (f : File) : list Py.str :=
  match load_pivot f with
  | Ok p => map fst (prows p)
  | Raise _ => []
  end.

Definition keys (t : Table) : list Py.str := map fst t.

(** The frame a call returns. *)
Definition returned (o : outcome) : list Merged :=
  match o with
  | Returns df _ => df
  | Propagates _ => []
  end.

(** The frame has exactly one row for each district name found in all
    three sources and no row for any other name. *)
Definition one_row_per_common_district
  (population price academy : list Py.str) (out : list Merged) : Prop :=
  forall d,
    count_occ str_dec (map region out) d
    = if inb d population && inb d price && inb d academy
      then 1%nat else 0%nat.

(** Two files that differ in their counts only. *)
Definition shape (r : Row) : Py.str * Py.str * label :=
  (district r, gender r, age r).

Definition same_shape (f f' : File) : Prop :=
  match f, f' with
  | Missing, Missing => True
  | Workbook a, Workbook b =>
    years a = years b /\ map shape (rows a) = map shape (rows b)
  | _, _ => False
  end.

(** * Workbooks

    The scenario of the specification (one district, 10000 in each of the
    four brackets, 100000 in total) and variations of it. *)

Definition row (d g : string) (a : string) (n : Z) : Row :=
  {| district := Py.lit d; gender := Py.lit g; age := LStr (Py.lit a);
     counts := [of_Z n] |}.

Definition gangnam (a0 a5 a10 a15 : string) : File :=
  Workbook {| years := [LStr (Py.lit "2023")];
              rows := [ row "강남구" "계" "계" 100000;
                        row "강남구" "계" a0 10000;
                        row "강남구" "계" a5 10000;
                        row "강남구" "계" a10 10000;
                        row "강남구" "계" a15 10000;
                        row "강남구" "남자" "계" 48000;
                        row "강남구" "여자" "계" 52000 ] |}.

Definition scenario : File :=
  gangnam "0 - 4세" "5 - 9세" "10 - 14세" "15 - 19세".

(** Its pivoted table: whole numbers throughout, the columns in sorted
    order. *)
Definition scenario_pivot : Pivot :=
  {| pdtype := Int64;
     pcolumns := [LStr kw_0_4; LStr kw_10_14; LStr kw_15_19; LStr kw_5_9;
                  col_total];
     prows := [ (Py.lit "강남구",
                 [of_Z 10000; of_Z 10000; of_Z 10000; of_Z 10000;
                  of_Z 100000]) ] |}.

(** Its district after lines 65-80: 14000, 12000 and 12000, and the ratios
    14.000000000000002, 12.0 and 12.0 with the sum 38.0. *)
Definition scenario_district : District :=
  {| name := Py.lit "강남구";
     brackets := [of_Z 10000; of_Z 10000; of_Z 10000; of_Z 10000;
                  of_Z 100000];
     infant := of_Z 14000;
     elementary := of_Z 12000;
     adolescent := of_Z 12000;
     total_pop := of_Z 100000;
     ratio_infant := S754_finite false 7881299347898369 (-49);
     ratio_elem := of_Z 12;
     ratio_adol := of_Z 12;
     ratio_total_youth := S754_finite false 5348024557502464 (-47) |}.

Definition scenario_districts : list District := [scenario_district].

Definition scenario_row : Merged :=
  {| region := Py.lit "강남구"; price := 8150; pop := scenario_district;
     academy_count := 2578 |}.

Definition scenario_out : list Merged := [scenario_row].

(** The same workbook with bracket labels written without spaces. *)
Definition compact : File := gangnam "0-4세" "5-9세" "10-14세" "15-19세".

Definition compact_district : District :=
  {| name := Py.lit "강남구";
     brackets := [of_Z 10000; of_Z 10000; of_Z 10000; of_Z 10000;
                  of_Z 100000];
     infant := zero;
     elementary := zero;
     adolescent := zero;
     total_pop := of_Z 100000;
     ratio_infant := zero;
     ratio_elem := zero;
     ratio_adol := zero;
     ratio_total_youth := zero |}.

(** Workbooks by their year columns. *)
Definition headed (ys : list label) : Sheet :=
  {| years := ys;
     rows := [ {| district := Py.lit "강남구"; gender := Py.lit "계";
                  age := col_total;
                  counts := map (fun _ => of_Z 100000) ys |} ] |}.

(** A workbook with two rows for one district and bracket, and one without
    a row of totals. *)
Definition twice : File :=
  Workbook {| years := [LStr (Py.lit "2023")];
              rows := [ row "강남구" "계" "계" 100000;
                        row "강남구" "계" "계" 90000 ] |}.

Definition untotalled : File :=
  Workbook {| years := [LStr (Py.lit "2023")];
              rows := [ row "강남구" "계" "0 - 4세" 10000 ] |}.

(** A workbook whose district label carries white space (an ideographic
    space in front, a space and a tab behind). *)
Definition padded_name : Py.str :=
  [12288%N] ++ Py.lit "강남구" ++ [32%N; 9%N].

Definition padded : File :=
  Workbook {| years := [LInt 2023];
              rows := [ {| district := padded_name; gender := Py.lit "계";
                           age := col_total; counts := [of_Z 100000] |} ] |}.

Definition padded_district : District :=
  {| name := Py.lit "강남구";
     brackets := [of_Z 100000];
     infant := zero;
     elementary := zero;
     adolescent := zero;
     total_pop := of_Z 100000;
     ratio_infant := zero;
     ratio_elem := zero;
     ratio_adol := zero;
     ratio_total_youth := zero |}.

Definition padded_out : list Merged :=
  [ {| region := Py.lit "강남구"; price := 8150; pop := padded_district;
       academy_count := 2578 |} ].

(** A workbook that lists one district under two spellings, one of them
    with a trailing space. *)
Definition doubled : File :=
  Workbook {| years := [LStr (Py.lit "2023")];
              rows := [ row "강남구 " "계" "계" 100000;
                        row "강남구" "계" "계" 90000;
                        row "서초구" "계" "계" 80000 ] |}.

(** The scenario with a total population of zero. *)
Definition deserted : File :=
  Workbook {| years := [LStr (Py.lit "2023")];
              rows := [ row "강남구" "계" "계" 0;
                        row "강남구" "계" "0 - 4세" 10000;
                        row "강남구" "계" "5 - 9세" 10000;
                        row "강남구" "계" "10 - 14세" 10000;
                        row "강남구" "계" "15 - 19세" 10000;
                        row "강남구" "남자" "계" 0;
                        row "강남구" "여자" "계" 0 ] |}.

Definition deserted_district : District :=
  {| name := Py.lit "강남구";
     brackets := [of_Z 10000; of_Z 10000; of_Z 10000; of_Z 10000; zero];
     infant := of_Z 14000;
     elementary := of_Z 12000;
     adolescent := of_Z 12000;
     total_pop := zero;
     ratio_infant := S754_infinity false;
     ratio_elem := S754_infinity false;
     ratio_adol := S754_infinity false;
     ratio_total_youth := S754_infinity false |}.

Definition deserted_out : list Merged :=
  [ {| region := Py.lit "강남구"; price := 8150; pop := deserted_district;
       academy_count := 2578 |} ].

(** A workbook with a district that the price table does not list. *)
Definition outsider : File :=
  Workbook {| years := [LInt 2024];
              rows := [ row "강남구" "계" "계" 100000;
                        row "세종시" "계" "계" 50000 ] |}.

(** A workbook with zero in every cell: no children and no population. *)
Definition vacant : File :=
  Workbook {| years := [LStr (Py.lit "2023")];
              rows := [ row "강남구" "계" "계" 0;
                        row "강남구" "계" "0 - 4세" 0;
                        row "강남구" "계" "5 - 9세" 0 ] |}.

Definition vacant_district : District :=
  {| name := Py.lit "강남구";
     brackets := [zero; zero; zero];
     infant := zero;
     elementary := zero;
     adolescent := zero;
     total_pop := zero;
     ratio_infant := nan;
     ratio_elem := nan;
     ratio_adol := nan;
     ratio_total_youth := nan |}.

(** The sheet of the scenario. *)
Definition headed_scenario : Sheet :=
  {| years := [LStr (Py.lit "2023")];
     rows := [ row "강남구" "계" "계" 100000;
               row "강남구" "계" "0 - 4세" 10000;
               row "강남구" "계" "5 - 9세" 10000;
               row "강남구" "계" "10 - 14세" 10000;
               row "강남구" "계" "15 - 19세" 10000;
               row "강남구" "남자" "계" 48000;
               row "강남구" "여자" "계" 52000 ] |}.

(** A workbook with the years 2023 and 2024, the counts of 2023 given. *)
Definition two_years (t c : Z) : Sheet :=
  {| years := [LInt 2023; LInt 2024];
     rows := [ {| district := Py.lit "강남구"; gender := Py.lit "계";
                  age := col_total; counts := [of_Z t; of_Z 100000] |};
               {| district := Py.lit "강남구"; gender := Py.lit "계";
                  age := LStr kw_0_4; counts := [of_Z c; of_Z 10000] |} ] |}.

(** A workbook in which one district has no row for the total. *)
Definition partial : Sheet :=
  {| years := [LStr (Py.lit "2023")];
     rows := [ row "강남구" "계" "계" 100000;
               row "강남구" "계" "0 - 4세" 10000;
               row "서초구" "계" "0 - 4세" 9000 ] |}.

Definition partial_pivot : Pivot :=
  {| pdtype := Float64;
     pcolumns := [LStr kw_0_4; col_total];
     prows := [ (Py.lit "강남구", [of_Z 10000; of_Z 100000]);
                (Py.lit "서초구", [of_Z 9000; nan]) ] |}.

(** The frame returned for [doubled]: two rows for one district. *)
Definition doubled_out : list Merged :=
  Eval vm_compute in
    returned (load_and_process_data PRICE_DATA_2024 ACADEMY_DATA doubled).


(** A workbook of whole numbers in which two columns belong to the bracket
    0-4 and hold 2^62 each. *)
Definition huge : Z := (2 ^ 62)%Z.

Definition overflowing : File :=
  Workbook {| years := [LStr (Py.lit "2023")];
              rows := [ row "강남구" "계" "계" 100000;
                        row "강남구" "계" "0 - 4세" huge;
                        row "강남구" "계" "0 - 4세 (외국인)" huge ] |}.

Definition overflowing_pivot : Pivot :=
  {| pdtype := Int64;
     pcolumns := [LStr kw_0_4; LStr (Py.lit "0 - 4세 (외국인)"); col_total];
     prows := [ (Py.lit "강남구", [of_Z huge; of_Z huge; of_Z 100000]) ] |}.

(** A workbook whose bracket labels are spaced in other ways, next to
    columns that are no brackets of the estimates. *)
Definition respaced_labels : list label :=
  [ LStr (Py.lit "0 -4세"); LStr (Py.lit "5  -  9세");
    LStr (Py.lit "10- 14세"); LStr (Py.lit "15-19세");
    LStr (Py.lit "20 - 24세"); col_total ].

(** A workbook with an age label that reads 'region'. *)
Definition regional : File :=
  Workbook {| years := [LStr (Py.lit "2023")];
              rows := [ row "강남구" "계" "계" 100000;
                        row "강남구" "계" "region" 7 ] |}.

(** The sheet of the scenario with an empty cell in a row that is not
    kept. *)
Definition blank_elsewhere : Sheet :=
  {| years := [LStr (Py.lit "2023")];
     rows := rows headed_scenario
             ++ [ {| district := Py.lit "강남구"; gender := Py.lit "남자";
                     age := LStr kw_0_4; counts := [nan] |} ] |}.

(** A workbook with the age labels 'price' and 'price_y'. *)
Definition clashing : File :=
  Workbook {| years := [LStr (Py.lit "2023")];
              rows := [ row "강남구" "계" "계" 100000;
                        row "강남구" "계" "price" 7;
                        row "강남구" "계" "price_y" 8 ] |}.

(** A workbook of whole numbers with three columns of the bracket 0-4. *)
Definition threefold : File :=
  Workbook {| years := [LStr (Py.lit "2023")];
              rows := [ row "강남구" "계" "계" 100000;
                        row "강남구" "계" "0 - 4세" 10000000000000000;
                        row "강남구" "계" "0 - 4세 (남)" 1;
                        row "강남구" "계" "0 - 4세 (여)" 1 ] |}.

(** A workbook that lists its districts and age labels out of order. *)
Definition unordered : File :=
  Workbook {| years := [LStr (Py.lit "2023")];
              rows := [ row "서초구" "계" "계" 80000;
                        row "서초구" "계" "5 - 9세" 8000;
                        row "서초구" "계" "10 - 14세" 7000;
                        row "강남구" "계" "계" 100000;
                        row "강남구" "계" "5 - 9세" 10000;
                        row "강남구" "계" "10 - 14세" 9000 ] |}.
(** * The dashboard script *)

(** The call of line 107: the function on the two tables of the source. *)
Definition app_load (f : File) : outcome :=
  load_and_process_data PRICE_DATA_2024 ACADEMY_DATA f.

(** [df.empty] *)
Definition empty (df : list Merged) : bool :=
  match df with
  | [] => true
  | _ :: _ => false
  end.

(** Lines 109 and 205-207: the tabs are drawn from [df], or the message
    of line 207 is shown in their place. *)
Inductive page :=
| Tabs (df : list Merged)
| LoadFailure.

Definition page_of (df : list Merged) : page :=
  if empty df then LoadFailure else Tabs df.

(** A run of the script up to the choice of line 109: what [st.error]
    showed inside the function and the page that follows. *)
Inductive session :=
| Session (shown : list exn) (p : page)
| Aborted (e : exn).

Definition script (f : File) : session :=
  match app_load f with
  | Returns df shown => Session shown (page_of df)
  | Propagates e => Aborted e
  end.

(** ** Statements about workbooks *)

(** The rows the pipeline keeps, and their keys in the pivot. *)
Definition kept (df : Sheet) : list Row := rows (filter_gender df).

Definition pivot_keys (df : Sheet) : list (Py.str * label) :=
  map (fun r => (district r, age r)) (kept df).

(** What the pipeline reads of a row when the year column is the [i]-th. *)
Definition reading (i : nat) (r : Row) : Py.str * Py.str * label * float :=
  (shape r, nth i (counts r) nan).

(** [0 < x] and finite. *)
Definition positive_finite (x : float) : bool :=
  match x with
  | S754_finite false _ _ => true
  | _ => false
  end.

(** * Properties *)

(** ** Checks of the embedding *)

Example lit_se : Py.lit "세" = [49464%N].
Proof. reflexivity. Qed.

Example lit_gangnam : Py.lit "강남구" = [44053%N; 45224%N; 44396%N].
Proof. reflexivity. Qed.

Example str_2024 : Py.of_int 2024 = Py.lit "2024".
Proof. reflexivity. Qed.

Example str_0 : Py.of_int 0 = Py.lit "0".
Proof. reflexivity. Qed.

Example str_neg : Py.of_int (-5) = Py.lit "-5".
Proof. reflexivity. Qed.

Example int_2023 : Py.to_int (Py.lit "2023") = Some 2023%Z.
Proof. reflexivity. Qed.

Example int_text : Py.to_int (Py.lit "세") = None.
Proof. reflexivity. Qed.

Example strip_ex : Py.strip (Py.lit "  강남구 ") = Py.lit "강남구".
Proof. reflexivity. Qed.

Example contains_spaced :
  Py.contains kw_0_4 (Py.lit "0 - 4세") = true /\
  Py.contains kw_0_4 (Py.lit "0-4세") = false /\
  Py.contains kw_5_9 (Py.lit "15 - 19세") = false.
Proof. repeat split. Qed.

Example scenario_load : load_pivot scenario = Ok scenario_pivot.
Proof. vm_compute. reflexivity. Qed.

(** The pivoted table has its districts and its columns in sorted order,
    whatever the order of the rows. *)
Example unordered_pivot :
  load_pivot unordered
  = Ok {| pdtype := Int64;
          pcolumns := [LStr kw_10_14; LStr kw_5_9; col_total];
          prows := [ (Py.lit "강남구", [of_Z 9000; of_Z 10000; of_Z 100000]);
                     (Py.lit "서초구", [of_Z 7000; of_Z 8000; of_Z 80000]) ] |}.
Proof. vm_compute. reflexivity. Qed.

Example sort_labels :
  sort label_leb [LStr (Py.lit "b"); LInt 10; LStr (Py.lit "a"); LInt 9;
                  LStr (Py.lit "B"); LStr (Py.lit "ab")]
  = [LInt 9; LInt 10; LStr (Py.lit "B"); LStr (Py.lit "a");
     LStr (Py.lit "ab"); LStr (Py.lit "b")].
Proof. reflexivity. Qed.

(** ** String facts *)

Lemma eqb_eq (a b : Py.str) : Py.eqb a b = true <-> a = b.
Proof.
  revert b. induction a as [|x a IH]; intros [|y b]; simpl;
    try (split; [discriminate | discriminate]); try tauto.
  rewrite andb_true_iff, N.eqb_eq, IH. split.
  - intros [-> ->]. reflexivity.
  - intros H. injection H as -> ->. auto.
Qed.

Lemma eqb_refl (a : Py.str) : Py.eqb a a = true.
Proof. now apply eqb_eq. Qed.

Lemma label_eqb_eq (a b : label) : label_eqb a b = true <-> a = b.
Proof.
  destruct a as [s|n], b as [t|m]; simpl.
  - rewrite eqb_eq. split; congruence.
  - split; discriminate.
  - split; discriminate.
  - rewrite Z.eqb_eq. split; congruence.
Qed.

Lemma mem_In (c : label) (l : list label) : mem c l = true <-> In c l.
Proof.
  unfold mem. rewrite existsb_exists. split.
  - intros (x & Hx & E). apply label_eqb_eq in E. now subst.
  - intros H. exists c. split; [exact H | now apply label_eqb_eq].
Qed.

Lemma position_Some (c : label) (l : list label) :
  In c l -> exists i, position c l = Some i.
Proof.
  induction l as [|x l IH]; simpl; [contradiction|].
  intros H. destruct (label_eqb c x) eqn:E; [now exists 0%nat|].
  destruct H as [->|H].
  - assert (label_eqb c c = true) by now apply label_eqb_eq. congruence.
  - destruct (IH H) as [i ->]. now exists (S i).
Qed.

Lemma position_None (c : label) (l : list label) :
  ~ In c l -> position c l = None.
Proof.
  induction l as [|x l IH]; simpl; [reflexivity|].
  intros H. destruct (label_eqb c x) eqn:E.
  - apply label_eqb_eq in E. subst. tauto.
  - rewrite IH; [reflexivity | tauto].
Qed.

(** [int(str(n)) == n] *)
Lemma to_int_of_int (n : Z) : Py.to_int (Py.of_int n) = Some n.
Proof.
  unfold Py.to_int, Py.of_int.
  assert (Hb : forall l, forallb (fun c => (c <? 256)%N) (map N_of_ascii l)
                         = true).
  { induction l as [|a l IH]; simpl; [reflexivity|]. rewrite IH.
    rewrite andb_true_r. apply N.ltb_lt, N_ascii_bounded. }
  rewrite Hb, map_map.
  rewrite (map_ext _ (fun a => a)) by (intros a; apply ascii_N_embedding).
  rewrite map_id, string_of_list_ascii_of_string.
  assert (H : exists d, NilZero.int_of_string
                          (NilZero.string_of_int (Z.to_int n)) = Some d
                        /\ Z.of_int d = Z.of_int (Z.to_int n)).
  { destruct (Z.to_int n) as [[| | | | | | | | | |]|[| | | | | | | | | |]] eqn:E;
      try (eexists; split; [apply NilZero.isi; discriminate | reflexivity]).
    - exists (Decimal.Pos Decimal.zero). split; reflexivity.
    - exists (Decimal.Neg (Decimal.D0 Decimal.Nil)). split; reflexivity. }
  destruct H as (d & Hd & Hz). rewrite Hd. simpl. rewrite Hz.
  now rewrite DecimalZ.of_to.
Qed.

Lemma of_int_inj (n m : Z) : Py.of_int n = Py.of_int m -> n = m.
Proof.
  intros H. pose proof (to_int_of_int n) as Hn. rewrite H, to_int_of_int in Hn.
  congruence.
Qed.

(** A label whose text is the numeral of [y] is the string or the integer. *)
Lemma str_of_numeral (c : label) (y : Z) :
  str_of c = Py.of_int y <-> c = LStr (Py.of_int y) \/ c = LInt y.
Proof.
  destruct c as [s|n]; simpl; split.
  - intros ->. now left.
  - intros [H|H]; congruence.
  - intros H. right. f_equal. now apply of_int_inj.
  - intros [H|H]; congruence.
Qed.

(** ** Sorting *)

Lemma insert_perm {A} (leb : A -> A -> bool) (x : A) (l : list A) :
  Permutation (insert leb x l) (x :: l).
Proof.
  induction l as [|y l IH]; simpl; [reflexivity|].
  destruct (leb x y); [reflexivity|].
  rewrite IH. apply perm_swap.
Qed.

(** Sorting rearranges and nothing else. *)
Lemma sort_perm {A} (leb : A -> A -> bool) (l : list A) :
  Permutation (sort leb l) l.
Proof.
  induction l as [|x l IH]; simpl; [reflexivity|].
  rewrite insert_perm. now constructor.
Qed.

Lemma In_sort {A} (leb : A -> A -> bool) (l : list A) (x : A) :
  In x (sort leb l) <-> In x l.
Proof.
  split; apply Permutation_in; [|symmetry]; apply sort_perm.
Qed.

Lemma NoDup_sort {A} (leb : A -> A -> bool) (l : list A) :
  NoDup l -> NoDup (sort leb l).
Proof.
  apply Permutation_NoDup. symmetry. apply sort_perm.
Qed.

(** ** Integer facts *)

Lemma wrap64_fits (z : Z) : fits_int64 z = true -> wrap64 z = z.
Proof.
  unfold fits_int64, wrap64. intros H.
  apply andb_true_iff in H as (H1 & H2).
  apply Z.leb_le in H1. apply Z.ltb_lt in H2.
  rewrite Z.mod_small; lia.
Qed.

Lemma wrap64_add (a b : Z) : wrap64 (wrap64 a + b) = wrap64 (a + b).
Proof.
  unfold wrap64. f_equal.
  replace ((a + 2 ^ 63) mod 2 ^ 64 - 2 ^ 63 + b + 2 ^ 63)%Z
    with ((a + 2 ^ 63) mod 2 ^ 64 + b)%Z by lia.
  rewrite Z.add_mod_idemp_l by lia. f_equal. lia.
Qed.

(** Adding on int64 is adding, then wrapping once. *)
Lemma fold_add_int64 (zs : list Z) (acc : Z) :
  wrap64 (fold_left add_int64 zs acc) = wrap64 (acc + total zs).
Proof.
  revert acc. induction zs as [|z zs IH]; intros acc; simpl.
  - now rewrite Z.add_0_r.
  - rewrite IH. unfold add_int64. rewrite wrap64_add. f_equal. lia.
Qed.

Lemma wrap64_idem (z : Z) : wrap64 (wrap64 z) = wrap64 z.
Proof.
  pose proof (wrap64_add z 0) as H. now rewrite !Z.add_0_r in H.
Qed.

Lemma sum_int64 (zs : list Z) :
  fold_left add_int64 zs 0%Z = wrap64 (total zs).
Proof.
  destruct zs as [|z zs]; [reflexivity|]. simpl.
  assert (H : forall l a, fold_left add_int64 l (wrap64 a)
                          = wrap64 (fold_left add_int64 l (wrap64 a))).
  { induction l as [|y l IH]; intros a; simpl.
    - now rewrite wrap64_idem.
    - apply IH. }
  unfold add_int64 at 2. rewrite H, fold_add_int64, wrap64_add.
  reflexivity.
Qed.


Lemma total_nonneg (zs : list Z) :
  Forall (fun z => (0 <= z)%Z) zs -> (0 <= total zs)%Z.
Proof. induction 1; simpl; lia. Qed.

(** ** Float facts *)

Lemma iter_pos_preserves {A} (P : A -> Prop) (f : A -> A) :
  (forall x, P x -> P (f x)) ->
  forall n x, P x -> P (iter_pos f n x).
Proof.
  intros Hf. induction n as [n IH|n IH|]; simpl; intros x Hx; auto.
Qed.

Lemma shr_1_nonneg mrs : (0 <= shr_m mrs)%Z -> (0 <= shr_m (shr_1 mrs))%Z.
Proof.
  destruct mrs as [m r s]. simpl.
  destruct m as [|[p|p|]|[p|p|]]; simpl; lia.
Qed.

Lemma shr_fexp_nonneg m e l :
  (0 <= m)%Z -> (0 <= shr_m (fst (shr_fexp prec emax m e l)))%Z.
Proof.
  intros Hm. unfold shr_fexp, shr.
  assert (H0 : (0 <= shr_m (shr_record_of_loc m l))%Z).
  { destruct l as [|[| |]]; simpl; exact Hm. }
  destruct (fexp prec emax (Zdigits2 m + e) - e)%Z; simpl; auto.
  apply (iter_pos_preserves (fun r => (0 <= shr_m r)%Z)); auto.
  apply shr_1_nonneg.
Qed.

Lemma round_nearest_even_nonneg m l :
  (0 <= m)%Z -> (0 <= round_nearest_even m l)%Z.
Proof.
  intros Hm. destruct l as [|[| |]]; simpl; try lia.
  destruct (Z.even m); lia.
Qed.

(** Rounding keeps the sign it is given. *)
Lemma binary_round_aux_sign s m e l :
  (0 <= m)%Z ->
  match binary_round_aux prec emax s m e l with
  | S754_zero s' | S754_infinity s' | S754_finite s' _ _ => s' = s
  | S754_nan => False
  end.
Proof.
  intros Hm. unfold binary_round_aux.
  pose proof (shr_fexp_nonneg m e l Hm) as H1.
  destruct (shr_fexp prec emax m e l) as [mrs' e']. simpl in H1.
  pose proof (shr_fexp_nonneg _ e' loc_Exact
                (round_nearest_even_nonneg _ (loc_of_shr_record mrs') H1)) as H2.
  destruct (shr_fexp prec emax _ e' loc_Exact) as [mrs'' e'']. simpl in H2.
  destruct (shr_m mrs'') as [|q|q]; try reflexivity; try lia.
  destruct (e'' <=? emax - prec)%Z; reflexivity.
Qed.

Lemma nonneg_cases x :
  nonneg x = true <->
  match x with
  | S754_zero _ => True
  | S754_infinity s | S754_finite s _ _ => s = false
  | S754_nan => False
  end.
Proof.
  unfold nonneg, SFleb, zero. destruct x as [s|[|]| |[|] m e]; simpl;
    split; intros; try reflexivity; try discriminate; try contradiction; auto.
Qed.

Lemma fmul_nonneg x m e :
  nonneg x = true -> nonneg (fmul x (S754_finite false m e)) = true.
Proof.
  intros Hx. apply nonneg_cases in Hx. apply nonneg_cases.
  destruct x as [s|s| |s mx ex]; simpl in *; subst; try easy.
  change (xorb false false) with false.
  pose proof (binary_round_aux_sign false (Zpos (mx * m)) (ex + e) loc_Exact) as H.
  specialize (H ltac:(lia)).
  destruct (binary_round_aux prec emax false (Z.pos (mx * m)) (ex + e) loc_Exact);
    auto.
Qed.

Lemma fadd_nonneg x y :
  nonneg x = true -> nonneg y = true -> nonneg (fadd x y) = true.
Proof.
  intros Hx Hy. apply nonneg_cases in Hx. apply nonneg_cases in Hy.
  apply nonneg_cases.
  destruct x as [sx|sx| |sx mx ex], y as [sy|sy| |sy my ey];
    simpl in *; subst; try easy.
  - destruct sx, sy; exact I.
  - unfold cond_Zopp.
    change (Z.pos ?a + Z.pos ?b)%Z with (Z.pos (a + b)).
    unfold binary_normalize, binary_round.
    destruct (shl_align _ _ _) as [mz ez].
    pose proof (binary_round_aux_sign false (Zpos mz) ez loc_Exact) as H.
    specialize (H ltac:(lia)).
    destruct (binary_round_aux prec emax false (Z.pos mz) ez loc_Exact); auto.
Qed.


(** *** strip *)

Lemma lstrip_split (s : Py.str) :
  exists pre, s = pre ++ Py.lstrip s /\
              Forall (fun c => Py.isspace c = true) pre /\
              Py.leading_space (Py.lstrip s) = false.
Proof.
  induction s as [|c s (pre & E & Hpre & Hl)]; simpl.
  - exists []. auto.
  - destruct (Py.isspace c) eqn:Hc.
    + exists (c :: pre). simpl. rewrite <- E. auto.
    + exists []. simpl. rewrite Hc. auto.
Qed.

Lemma lstrip_spaces (pre t : Py.str) :
  Forall (fun c => Py.isspace c = true) pre ->
  Py.lstrip (pre ++ t) = Py.lstrip t.
Proof.
  induction 1 as [|c pre Hc _ IH]; simpl; [reflexivity|]. now rewrite Hc.
Qed.

Lemma lstrip_fixed (t : Py.str) :
  Py.leading_space t = false -> Py.lstrip t = t.
Proof. destruct t as [|c t]; simpl; [reflexivity|]. now intros ->. Qed.

(** [strip] removes a run of white space at each end, and what is left
    neither starts nor ends with white space. *)
Lemma strip_split (s : Py.str) :
  exists pre suf,
    s = pre ++ Py.strip s ++ suf /\
    Forall (fun c => Py.isspace c = true) pre /\
    Forall (fun c => Py.isspace c = true) suf /\
    Py.leading_space (Py.strip s) = false /\
    Py.leading_space (rev (Py.strip s)) = false.
Proof.
  destruct (lstrip_split s) as (pre & E1 & Hpre & Hl).
  destruct (lstrip_split (rev (Py.lstrip s))) as (fus & E2 & Hfus & Hr).
  exists pre, (rev fus).
  assert (E3 : Py.lstrip s = Py.strip s ++ rev fus).
  { unfold Py.strip, Py.rstrip. rewrite <- rev_app_distr, <- E2.
    now rewrite rev_involutive. }
  repeat split.
  - now rewrite <- E3.
  - exact Hpre.
  - apply Forall_rev. exact Hfus.
  - rewrite E3 in Hl. destruct (Py.strip s); [reflexivity | exact Hl].
  - unfold Py.strip, Py.rstrip. now rewrite rev_involutive.
Qed.

(** The other way round: white space around a trimmed core is removed. *)
Lemma strip_padded (pre core suf : Py.str) :
  Forall (fun c => Py.isspace c = true) pre ->
  Forall (fun c => Py.isspace c = true) suf ->
  Py.leading_space core = false ->
  Py.leading_space (rev core) = false ->
  Py.strip (pre ++ core ++ suf) = core.
Proof.
  intros Hpre Hsuf Hl Hr. unfold Py.strip, Py.rstrip.
  rewrite lstrip_spaces by exact Hpre.
  destruct core as [|c core].
  - simpl. rewrite <- (app_nil_r suf), lstrip_spaces by exact Hsuf.
    reflexivity.
  - rewrite (lstrip_fixed ((c :: core) ++ suf)) by exact Hl.
    rewrite rev_app_distr, lstrip_spaces by (apply Forall_rev; exact Hsuf).
    rewrite (lstrip_fixed (rev (c :: core))) by exact Hr.
    apply rev_involutive.
Qed.

Lemma strip_idempotent (s : Py.str) : Py.strip (Py.strip s) = Py.strip s.
Proof.
  destruct (strip_split s) as (pre & suf & _ & _ & _ & Hl & Hr).
  rewrite <- (app_nil_r (Py.strip s)) at 1.
  apply (strip_padded [] (Py.strip s) []); auto.
Qed.

(** *** Substrings *)

Lemma prefix_spec (k s : Py.str) :
  Py.prefix k s = true <-> exists suf, s = k ++ suf.
Proof.
  revert s. induction k as [|a k IH]; intros s; simpl.
  - split; [eauto | reflexivity].
  - destruct s as [|b s].
    + split; [discriminate | intros (suf & E); discriminate].
    + rewrite andb_true_iff, N.eqb_eq, IH. split.
      * intros (-> & suf & ->). eauto.
      * intros (suf & E). injection E as -> ->. eauto.
Qed.

Lemma contains_spec (k s : Py.str) :
  Py.contains k s = true <-> exists pre suf, s = pre ++ k ++ suf.
Proof.
  induction s as [|b s IH].
  - simpl. rewrite orb_false_r, prefix_spec. split.
    + intros (suf & E). exists [], suf. exact E.
    + intros (pre & suf & E). symmetry in E.
      apply app_eq_nil in E as (-> & E). apply app_eq_nil in E as (-> & ->).
      now exists [].
  - cbn [Py.contains]. rewrite orb_true_iff, prefix_spec, IH. split.
    + intros [(suf & E)|(pre & suf & E)].
      * exists [], suf. exact E.
      * exists (b :: pre), suf. simpl. now rewrite E.
    + intros ([|b' pre] & suf & E).
      * left. exists suf. exact E.
      * right. simpl in E. injection E as -> ->. eauto.
Qed.

(** ** Inner joins *)

Section Join.

Context {A B C : Type}.
Variables (ka : A -> Py.str) (kb : B -> Py.str) (kc : C -> Py.str).
Variable mk : A -> B -> C.
Hypothesis kc_mk : forall a b, kc (mk a b) = ka a.

Lemma In_join (la : list A) (lb : list B) (c : C) :
  In c (join ka kb mk la lb) <->
  exists a b, In a la /\ In b lb /\ ka a = kb b /\ c = mk a b.
Proof.
  unfold join. rewrite in_flat_map. split.
  - intros (a & Ha & Hc). apply in_map_iff in Hc as (b & <- & Hb).
    apply filter_In in Hb as (Hb & E). apply eqb_eq in E.
    exists a, b. auto.
  - intros (a & b & Ha & Hb & E & ->). exists a. split; [exact Ha|].
    apply in_map, filter_In. split; [exact Hb | now apply eqb_eq].
Qed.

Lemma count_matches (k : Py.str) (lb : list B) :
  List.length (filter (fun b => Py.eqb k (kb b)) lb)
  = count_occ str_dec (map kb lb) k.
Proof.
  induction lb as [|b lb IH]; simpl; [reflexivity|].
  destruct (str_dec (kb b) k) as [E|E].
  - rewrite E, eqb_refl. simpl. now rewrite IH.
  - destruct (Py.eqb k (kb b)) eqn:E'; [|exact IH].
    apply eqb_eq in E'. congruence.
Qed.

Lemma count_constant (k k0 : Py.str) (lc : list C) :
  (forall c, In c lc -> kc c = k0) ->
  count_occ str_dec (map kc lc) k
  = if str_dec k0 k then List.length lc else 0%nat.
Proof.
  induction lc as [|c lc IH]; intros H; simpl.
  - now destruct (str_dec k0 k).
  - rewrite (H c) by now left. rewrite IH by (intros; apply H; now right).
    destruct (str_dec k0 k); reflexivity.
Qed.

(** A key occurs in the join as often as on the left times on the right. *)
Lemma count_join (la : list A) (lb : list B) (k : Py.str) :
  count_occ str_dec (map kc (join ka kb mk la lb)) k
  = (count_occ str_dec (map ka la) k * count_occ str_dec (map kb lb) k)%nat.
Proof.
  unfold join. induction la as [|a la IH]; simpl; [reflexivity|].
  rewrite map_app, count_occ_app, IH.
  rewrite (count_constant k (ka a)).
  2:{ intros c Hc. apply in_map_iff in Hc as (b & <- & _). apply kc_mk. }
  rewrite length_map, count_matches.
  destruct (str_dec (ka a) k) as [->|E]; lia.
Qed.

End Join.

(** ** Stages of the pipeline *)

Lemma bind_Ok {A B} (m : result A) (k : A -> result B) (b : B) :
  bind m k = Ok b -> exists a, m = Ok a /\ k a = Ok b.
Proof. destruct m as [a|e]; simpl; [eauto | discriminate]. Qed.

Lemma estimates_rows (p : Pivot) (ds : list District) :
  estimates p = Ok ds ->
  exists i, position col_total (pcolumns p) = Some i /\
            ds = map (estimate (pdtype p) (pcolumns p) i) (prows p).
Proof.
  unfold estimates. destruct (position col_total (pcolumns p)) as [i|].
  - intros H. injection H as <-. now exists i.
  - discriminate.
Qed.

Lemma pivot_Ok (dt : dtype) (df : Sheet) (c : label) (p : Pivot) :
  pivot dt df c = Ok p ->
  exists vals,
    values_column df c = Ok vals /\
    duplicated (map (fun r => (district r, age r)) (rows df)) = false /\
    pcolumns p = sort label_leb (nodup label_dec (map age (rows df))) /\
    prows p =
      map (fun d => (d, map (cell (map (fun r => (district r, age r)) (rows df))
                                  vals d) (pcolumns p)))
          (sort Py.leb (nodup str_dec (map district (rows df)))).
Proof.
  unfold pivot. intros H. apply bind_Ok in H as (vals & Hv & H).
  exists vals. destruct (duplicated _); [discriminate|].
  injection H as <-. simpl. auto.
Qed.

Lemma load_pivot_Ok (f : File) (p : Pivot) :
  load_pivot f = Ok p ->
  exists df c p0,
    f = Workbook df /\
    target_year (columns df) = Ok c /\
    pivot (dtype_of df c) (filter_gender df) c = Ok p0 /\
    p = strip_index p0.
Proof.
  unfold load_pivot. intros H.
  apply bind_Ok in H as (df & Hf & H).
  apply bind_Ok in H as (c & Hc & H).
  apply bind_Ok in H as (p0 & Hp & H).
  injection H as <-. exists df, c, p0.
  destruct f; simpl in Hf; [discriminate|]. injection Hf as ->. auto.
Qed.

(** The pivoted table is rectangular and its columns are distinct. *)
Lemma load_pivot_shape (f : File) (p : Pivot) :
  load_pivot f = Ok p ->
  NoDup (pcolumns p) /\
  forall r, In r (prows p) -> List.length (snd r) = List.length (pcolumns p).
Proof.
  intros H. apply load_pivot_Ok in H as (df & c & p0 & _ & _ & Hp & ->).
  apply pivot_Ok in Hp as (vals & _ & _ & Hc & Hr). simpl. split.
  - rewrite Hc. apply NoDup_sort, NoDup_nodup.
  - intros r Hin. apply in_map_iff in Hin as (r0 & <- & Hin). simpl.
    rewrite Hr in Hin. apply in_map_iff in Hin as (d & <- & _). simpl.
    apply length_map.
Qed.

(** The index of the pivoted table: the trimmed names of the districts that
    have a row for the gender total. *)
Lemma load_pivot_index (f : File) (p : Pivot) :
  load_pivot f = Ok p ->
  exists df, f = Workbook df /\
    forall k, In k (map fst (prows p)) <->
      exists r, In r (rows df) /\ gender r = total_gender /\
                k = Py.strip (district r).
Proof.
  intros H. apply load_pivot_Ok in H as (df & c & p0 & -> & _ & Hp & ->).
  apply pivot_Ok in Hp as (vals & _ & _ & _ & Hr).
  exists df. split; [reflexivity|]. intros k. simpl.
  rewrite map_map. simpl. rewrite Hr, map_map. simpl.
  rewrite in_map_iff. split.
  - intros (d & <- & Hd). apply In_sort, nodup_In, in_map_iff in Hd
      as (r & <- & Hin).
    apply filter_In in Hin as (Hin & Hg). apply eqb_eq in Hg. eauto.
  - intros (r & Hin & Hg & ->). exists (district r). split; [reflexivity|].
    apply In_sort, nodup_In, in_map. apply filter_In. split; [exact Hin|].
    now apply eqb_eq.
Qed.

Section Stages.

Variables df_price df_academy : Table.

Lemma process_Ok (f : File) (out : list Merged) :
  process df_price df_academy f = Ok out ->
  exists p i,
    load_pivot f = Ok p /\
    position col_total (pcolumns p) = Some i /\
    estimates p
    = Ok (map (estimate (pdtype p) (pcolumns p) i) (prows p)) /\
    out = merge_academy
            (merge_price df_price
               (map (estimate (pdtype p) (pcolumns p) i) (prows p)))
            df_academy.
Proof.
  unfold process. intros H.
  apply bind_Ok in H as (p & Hp & H).
  apply bind_Ok in H as (ds & Hds & H).
  pose proof Hds as Hds'.
  apply estimates_rows in Hds' as (i & Hi & ->).
  exists p, i. unfold merge in H.
  destruct (price_clash (pcolumns p)); [discriminate|].
  destruct (academy_clash (pcolumns p)); [discriminate|].
  injection H as <-. auto.
Qed.

(** Whether the merges run is a matter of the age labels. *)
Lemma process_clash (f : File) (out : list Merged) (p : Pivot) :
  process df_price df_academy f = Ok out ->
  load_pivot f = Ok p ->
  price_clash (pcolumns p) = false /\ academy_clash (pcolumns p) = false.
Proof.
  unfold process. intros H Hp. rewrite Hp in H. cbn [bind] in H.
  apply bind_Ok in H as (ds & _ & H). unfold merge in H.
  destruct (price_clash (pcolumns p)); [discriminate|].
  destruct (academy_clash (pcolumns p)); [discriminate|]. auto.
Qed.

(** The body runs whenever the pivoted table has its column of totals and
    the merges meet no clash of names. *)
Lemma process_runs (f : File) (p : Pivot) (i : nat) :
  load_pivot f = Ok p ->
  position col_total (pcolumns p) = Some i ->
  price_clash (pcolumns p) = false ->
  academy_clash (pcolumns p) = false ->
  process df_price df_academy f
  = Ok (merge_academy
          (merge_price df_price
             (map (estimate (pdtype p) (pcolumns p) i) (prows p)))
          df_academy).
Proof.
  intros Hp Hi H1 H2. unfold process. rewrite Hp. cbn [bind].
  unfold estimates. rewrite Hi. cbn [bind]. unfold merge.
  now rewrite H1, H2.
Qed.

Lemma In_merged (ds : list District) (m : Merged) :
  In m (merge_academy (merge_price df_price ds) df_academy) <->
  In (pop m) ds /\ name (pop m) = region m /\
  In (region m, price m) df_price /\
  In (region m, academy_count m) df_academy.
Proof.
  unfold merge_academy, merge_price. rewrite In_join. split.
  - intros (x & kv & Hx & Hkv & E & ->). simpl.
    apply In_join in Hx as (kv0 & d & Hkv0 & Hd & E0 & ->). simpl in *.
    destruct kv0 as [k0 v0], kv as [k v]. simpl in *. subst. auto.
  - intros (Hd & E & Hp & Ha). destruct m as [k v d a]. simpl in *.
    exists (k, v, d), (k, a). repeat split; auto.
    apply In_join. exists (k, v), d. auto.
Qed.

Lemma count_merged (ds : list District) (k : Py.str) :
  count_occ str_dec
    (map region (merge_academy (merge_price df_price ds) df_academy)) k
  = (count_occ str_dec (map fst df_price) k
     * count_occ str_dec (map name ds) k
     * count_occ str_dec (map fst df_academy) k)%nat.
Proof.
  unfold merge_academy.
  rewrite (count_join (fun m : Py.str * Z * District => fst (fst m)) fst region)
    by reflexivity.
  unfold merge_price.
  rewrite (count_join fst name (fun m : Py.str * Z * District => fst (fst m)))
    by reflexivity.
  reflexivity.
Qed.

End Stages.
(** ** Bracket columns *)

Lemma matches_one (kw : Py.str) (c : label) :
  matches [kw] c = Py.contains kw (str_of c).
Proof. unfold matches. simpl. apply orb_false_r. Qed.

Lemma target_cols_incl (kws : list Py.str) (cols : list label) (c : label) :
  In c (target_cols kws cols) -> In c cols.
Proof. unfold target_cols. intros H. now apply filter_In in H. Qed.

(** Selecting by position is selecting by label when labels are distinct. *)
Lemma select_by_label (kws : list Py.str) (cols : list label)
  (cells : list float) :
  NoDup cols ->
  List.length cells = List.length cols ->
  select kws cols cells = map (at_label cols cells) (target_cols kws cols).
Proof.
  intros Hnd. revert cells.
  induction Hnd as [|c cols Hc Hnd IH]; intros [|v cells] Hlen;
    try discriminate; [reflexivity|].
  simpl in Hlen. injection Hlen as Hlen. specialize (IH cells Hlen).
  assert (Htail : map (at_label (c :: cols) (v :: cells)) (target_cols kws cols)
                  = map (at_label cols cells) (target_cols kws cols)).
  { apply map_ext_in. intros c' Hc'. apply target_cols_incl in Hc'.
    unfold at_label. simpl.
    destruct (label_eqb c' c) eqn:E.
    - apply label_eqb_eq in E. subst. contradiction.
    - destruct (position c' cols); reflexivity. }
  simpl. destruct (matches kws c) eqn:Em; simpl.
  - rewrite IH, Htail. f_equal. unfold at_label. simpl.
    assert (E : label_eqb c c = true) by now apply label_eqb_eq.
    now rewrite E.
  - now rewrite IH, Htail.
Qed.

Lemma select_none (kws : list Py.str) (cols : list label)
  (cells : list float) :
  (forall c, In c cols -> matches kws c = false) ->
  select kws cols cells = [].
Proof.
  revert cells. induction cols as [|c cols IH]; intros cells H;
    [reflexivity|]. destruct cells as [|v cells]; [reflexivity|]. simpl.
  rewrite (H c) by now left. apply IH. intros c' Hc'. apply H. now right.
Qed.

(** What [get_sum] adds up at a row of the pivoted table is what the
    specification calls the count of the bracket. *)
Lemma bracket_count_of (f : File) (p : Pivot) (r : Py.str * list float)
  (kw : Py.str) :
  load_pivot f = Ok p ->
  In r (prows p) ->
  bracket (pdtype p) kw (pcolumns p) (snd r)
  = count_of (pdtype p) kw (pcolumns p) (snd r).
Proof.
  intros H Hr. apply load_pivot_shape in H as (Hnd & Hlen).
  unfold bracket, get_sum, count_of.
  rewrite select_by_label by auto. unfold target_cols.
  f_equal. f_equal. apply filter_ext. intros c. apply matches_one.
Qed.

Lemma Forall2_map {A B} (R : A -> B -> Prop) (g : A -> B) (l : list A) :
  (forall x, In x l -> R x (g x)) -> Forall2 R l (map g l).
Proof.
  induction l as [|x l IH]; intros H; simpl; constructor.
  - apply H. now left.
  - apply IH. intros y Hy. apply H. now right.
Qed.

(** ** Youth estimates *)

(** The weights are the binary64 numbers nearest to 4/10, 6/10 and 8/10,
    as Python reads the literals, and the factor is the integer 100. *)
Lemma weights_nearest :
  f0_4 = fdiv (of_Z 4) (of_Z 10) /\
  f0_6 = fdiv (of_Z 6) (of_Z 10) /\
  f0_8 = fdiv (of_Z 8) (of_Z 10) /\
  f100 = of_Z 100.
Proof. repeat split; vm_compute; reflexivity. Qed.

(** C1. Every row of the pivoted population table yields one district, in
    order, whose estimates are: infant = count(0-4) + count(5-9) * 0.4,
    elementary = count(5-9) * 0.6 + count(10-14) * 0.6 and
    adolescent = count(10-14) * 0.4 + count(15-19) * 0.8, in binary64
    arithmetic with the fixed weights, each count being the sum of the
    cells under the columns of that bracket, as a table of the dtype of the
    pivoted table adds them. *)
Theorem youth_estimates_weights (f : File) (p : Pivot) (ds : list District) :
  load_pivot f = Ok p ->
  estimates p = Ok ds ->
  Forall2 (fun r d =>
    let count kw := count_of (pdtype p) kw (pcolumns p) (snd r) in
    name d = fst r /\
    infant d = fadd (count kw_0_4) (fmul (count kw_5_9) f0_4) /\
    elementary d =
      fadd (fmul (count kw_5_9) f0_6) (fmul (count kw_10_14) f0_6) /\
    adolescent d =
      fadd (fmul (count kw_10_14) f0_4) (fmul (count kw_15_19) f0_8))
    (prows p) ds.
Proof.
  intros Hp H. destruct (estimates_rows p ds H) as (i & _ & ->).
  apply Forall2_map. intros r Hr. cbv beta zeta.
  rewrite <- !(bracket_count_of f p r) by assumption.
  repeat split; reflexivity.
Qed.

Lemma youth_estimates_weights_witness :
  Forall2 (fun r d =>
    let count kw :=
      count_of (pdtype scenario_pivot) kw (pcolumns scenario_pivot) (snd r) in
    name d = fst r /\
    infant d = fadd (count kw_0_4) (fmul (count kw_5_9) f0_4) /\
    elementary d =
      fadd (fmul (count kw_5_9) f0_6) (fmul (count kw_10_14) f0_6) /\
    adolescent d =
      fadd (fmul (count kw_10_14) f0_4) (fmul (count kw_15_19) f0_8))
    (prows scenario_pivot) scenario_districts.
Proof.
  apply (youth_estimates_weights scenario scenario_pivot scenario_districts).
  - vm_compute. reflexivity.
  - vm_compute. reflexivity.
Defined.

(** ** Ratios *)

Lemma SFeqb_refl (x : float) :
  is_nan x = false -> SFeqb x x = true.
Proof.
  unfold SFeqb. destruct x as [s|[|]| |[|] m e]; simpl; try reflexivity;
    try discriminate; intros _; rewrite Z.compare_refl;
    change (Pos.compare_cont Eq m m) with (Pos.compare m m);
    now rewrite Pos.compare_refl.
Qed.

(** C5. In every row of the merged output each ratio is the estimate
    divided by the total population, times 100, and ratio_total_youth is
    the float sum ratio_infant + ratio_elem + ratio_adol itself: the same
    binary64 value, so equal under [==] unless it is NaN. *)
Theorem ratio_total_is_sum (df_price df_academy : Table) (f : File)
  (out : list Merged) (m : Merged) :
  process df_price df_academy f = Ok out ->
  In m out ->
  let d := pop m in
  ratio_infant d = fmul (fdiv (infant d) (total_pop d)) f100 /\
  ratio_elem d = fmul (fdiv (elementary d) (total_pop d)) f100 /\
  ratio_adol d = fmul (fdiv (adolescent d) (total_pop d)) f100 /\
  ratio_total_youth d
    = fadd (fadd (ratio_infant d) (ratio_elem d)) (ratio_adol d) /\
  (is_nan (ratio_total_youth d) = false ->
   SFeqb (ratio_total_youth d)
         (fadd (fadd (ratio_infant d) (ratio_elem d)) (ratio_adol d)) = true).
Proof.
  intros H Hm. apply process_Ok in H as (p & i & _ & _ & _ & ->).
  apply In_merged in Hm as (Hd & _). apply in_map_iff in Hd as (r & <- & _).
  cbv zeta. repeat split. simpl. apply SFeqb_refl.
Qed.

Lemma ratio_total_is_sum_witness :
  exists m, In m scenario_out /\
  let d := pop m in
  ratio_infant d = fmul (fdiv (infant d) (total_pop d)) f100 /\
  ratio_elem d = fmul (fdiv (elementary d) (total_pop d)) f100 /\
  ratio_adol d = fmul (fdiv (adolescent d) (total_pop d)) f100 /\
  ratio_total_youth d
    = fadd (fadd (ratio_infant d) (ratio_elem d)) (ratio_adol d) /\
  (is_nan (ratio_total_youth d) = false ->
   SFeqb (ratio_total_youth d)
         (fadd (fadd (ratio_infant d) (ratio_elem d)) (ratio_adol d)) = true).
Proof.
  exists scenario_row. split; [now left|].
  apply (ratio_total_is_sum PRICE_DATA_2024 ACADEMY_DATA scenario scenario_out
           scenario_row).
  - vm_compute. reflexivity.
  - now left.
Defined.

(** ** Signs *)

Lemma select_Forall (P : float -> Prop) (kws : list Py.str)
  (cols : list label) (cells : list float) :
  Forall P cells -> Forall P (select kws cols cells).
Proof.
  intros H. revert cols. induction H as [|v cells Hv _ IH]; intros [|c cols];
    simpl; try constructor.
  destruct (matches kws c); [constructor|]; auto.
Qed.

Lemma fillna0_nonneg (x : float) : count_ok x -> nonneg (fillna0 x) = true.
Proof.
  unfold fillna0. intros [H|H].
  - destruct (is_nan x) eqn:E; [reflexivity | exact H].
  - now rewrite H.
Qed.

Lemma float_sum_nonneg (cells : list float) :
  Forall count_ok cells -> nonneg (row_sum Float64 cells) = true.
Proof.
  unfold row_sum. assert (H0 : nonneg zero = true) by reflexivity.
  revert H0. generalize zero as acc.
  intros acc Hacc H. revert acc Hacc.
  induction H as [|c cells Hc _ IH]; simpl; intros acc Hacc; [exact Hacc|].
  apply IH, fadd_nonneg; [exact Hacc | now apply fillna0_nonneg].
Qed.

(** The float of an integer that is not negative is not negative. *)
Lemma of_Z_nonneg (z : Z) : (0 <= z)%Z -> nonneg (of_Z z) = true.
Proof.
  intros Hz. apply nonneg_cases. unfold of_Z, binary_normalize.
  destruct z as [|m|m]; [exact I| |lia].
  unfold binary_round. destruct (shl_align _ _ _) as [mz ez].
  pose proof (binary_round_aux_sign false (Zpos mz) ez loc_Exact) as H.
  specialize (H ltac:(lia)).
  destruct (binary_round_aux prec emax false (Z.pos mz) ez loc_Exact); auto.
Qed.

Lemma to_Z_nonneg (x : float) : count_ok x -> (0 <= to_Z x)%Z.
Proof.
  intros [H|H].
  - apply nonneg_cases in H. destruct x as [s|s| |s m e]; try (simpl; lia).
    subst s. unfold to_Z, cond_Zopp. destruct e as [|q|q]; [lia| |].
    + apply Z.mul_nonneg_nonneg; try lia; apply Z.pow_nonneg; lia.
    + apply Z.div_pos; try lia; apply Z.pow_pos_nonneg; lia.
  - destruct x; try discriminate H. simpl. lia.
Qed.

Lemma int_sum_nonneg (cells : list float) :
  Forall count_ok cells ->
  (total (map to_Z cells) < 2 ^ 63)%Z ->
  nonneg (row_sum Int64 cells) = true.
Proof.
  intros H Hlt. unfold row_sum. rewrite sum_int64.
  assert (H0 : (0 <= total (map to_Z cells))%Z).
  { apply total_nonneg. rewrite Forall_map.
    eapply Forall_impl; [|exact H]. apply to_Z_nonneg. }
  rewrite wrap64_fits; [now apply of_Z_nonneg|].
  unfold fits_int64. apply andb_true_iff. split; [apply Z.leb_le | apply Z.ltb_lt];
    lia.
Qed.

(** A bracket count is not negative when the counts are not and, in a table
    of whole numbers, their sum stays below 2^63. *)
Lemma bracket_nonneg (dt : dtype) (kw : Py.str) (cols : list label)
  (cells : list float) :
  Forall count_ok cells ->
  (dt = Int64 -> (exact_count kw cols cells < 2 ^ 63)%Z) ->
  nonneg (get_sum dt [kw] cols cells) = true.
Proof.
  intros H Hlt. unfold get_sum.
  pose proof (select_Forall count_ok [kw] cols cells H) as Hs.
  destruct dt.
  - apply int_sum_nonneg; [exact Hs | now apply Hlt].
  - now apply float_sum_nonneg.
Qed.

(** C8 as stated does not hold of the workbook [overflowing]: its counts
    are whole numbers, none negative, two of them 2^62 under columns of the
    bracket 0-4; their sum wraps around to -2^63 and so does the infant
    estimate. *)
Lemma overflow_negative :
  load_pivot overflowing = Ok overflowing_pivot /\
  ~ nonneg_preserved overflowing_pivot.
Proof.
  split; [vm_compute; reflexivity|]. intros H.
  destruct (H _ _ eq_refl (or_introl eq_refl)) as (Hi & _).
  - repeat constructor.
  - vm_compute in Hi. discriminate.
Qed.

(** C8, amended. When the counts of a district are not negative (a missing
    count aside) and, in a table of whole numbers, the sum of the counts of
    each bracket is below 2^63, its infant, elementary and adolescent
    estimates are not negative. *)
Theorem estimates_nonneg (p : Pivot) (ds : list District) (d : District) :
  estimates p = Ok ds ->
  In d ds ->
  Forall count_ok (brackets d) ->
  (pdtype p = Int64 ->
   forall kw, In kw keywords ->
     (exact_count kw (pcolumns p) (brackets d) < 2 ^ 63)%Z) ->
  nonneg (infant d) = true /\
  nonneg (elementary d) = true /\
  nonneg (adolescent d) = true.
Proof.
  intros H Hd Hc Hlt. apply estimates_rows in H as (i & _ & ->).
  apply in_map_iff in Hd as (r & <- & _). simpl in *.
  assert (Hb : forall kw, In kw keywords ->
                 nonneg (get_sum (pdtype p) [kw] (pcolumns p) (snd r)) = true).
  { intros kw Hk. apply bracket_nonneg; [exact Hc|]. intros E.
    now apply Hlt. }
  repeat split; apply fadd_nonneg;
    try apply fmul_nonneg; apply Hb; simpl; auto.
Qed.

Lemma estimates_nonneg_witness :
  nonneg (infant scenario_district) = true /\
  nonneg (elementary scenario_district) = true /\
  nonneg (adolescent scenario_district) = true.
Proof.
  apply (estimates_nonneg scenario_pivot scenario_districts scenario_district).
  - vm_compute. reflexivity.
  - now left.
  - repeat constructor.
  - intros _ kw Hk.
    repeat (destruct Hk as [<-|Hk]; [vm_compute; reflexivity|]).
    contradiction.
Defined.

(** ** Sums *)

Lemma has_inside_contains (kw s : Py.str) :
  has_inside kw s <-> Py.contains kw s = true.
Proof. symmetry. apply contains_spec. Qed.








(** Whole numbers are added exactly: 10^16 + 1 + 1 is 10000000000000002,
    which binary64 addition, one cell after the other, would miss. *)
Example exact_integer_sum :
  match load_pivot threefold with
  | Ok p =>
    map (fun r => bracket (pdtype p) kw_0_4 (pcolumns p) (snd r)) (prows p)
  | Raise _ => []
  end = [of_Z 10000000000000002].
Proof. vm_compute. reflexivity. Qed.

(** An empty cell anywhere in the year column, here in a row of another
    gender, makes the pivoted table float64. *)
Example dtype_follows_column :
  (p <- load_pivot (Workbook headed_scenario) ;; Ok (pdtype p)) = Ok Int64 /\
  (p <- load_pivot (Workbook blank_elsewhere) ;; Ok (pdtype p)) = Ok Float64.
Proof. split; vm_compute; reflexivity. Qed.



(** ** Keywords *)

Lemma despace_app (a b : Py.str) : despace (a ++ b) = despace a ++ despace b.
Proof. apply filter_app. Qed.

Lemma despace_nil (s : Py.str) :
  despace s = [] -> Forall (fun c => Py.isspace c = true) s.
Proof.
  induction s as [|c s IH]; simpl; [constructor|].
  destruct (Py.isspace c) eqn:E; simpl; [|discriminate].
  intros H. constructor; auto.
Qed.

(** A label made of the characters of the keyword and of white space has
    the keyword inside only if it is the keyword with white space around
    it. *)
Lemma inside_respacing (kw s : Py.str) :
  despace s = despace kw ->
  has_inside kw s ->
  exists pre suf,
    s = pre ++ kw ++ suf /\
    Forall (fun c => Py.isspace c = true) pre /\
    Forall (fun c => Py.isspace c = true) suf.
Proof.
  intros E (pre & suf & ->). exists pre, suf. split; [reflexivity|].
  rewrite !despace_app in E.
  assert (Hl : (List.length (despace pre) + List.length (despace suf) = 0)%nat).
  { apply (f_equal (@List.length N)) in E. rewrite !length_app in E. lia. }
  split; apply despace_nil, length_zero_iff_nil; lia.
Qed.

Lemma keyword_ends (kw : Py.str) :
  In kw keywords ->
  Py.leading_space kw = false /\ Py.leading_space (rev kw) = false.
Proof.
  intros Hk. repeat (destruct Hk as [<-|Hk]; [split; reflexivity|]).
  contradiction.
Qed.

(** Among the labels that write a bracket with some spacing, the keyword
    is inside exactly those that are the keyword once trimmed. *)
Lemma spacing_decides (kw s : Py.str) :
  In kw keywords ->
  despace s = despace kw ->
  (Py.contains kw s = true <-> Py.strip s = kw).
Proof.
  intros Hk E. destruct (keyword_ends kw Hk) as (Hl & Hr). split.
  - intros H. apply has_inside_contains in H.
    destruct (inside_respacing kw s E H) as (pre & suf & -> & Hpre & Hsuf).
    now apply strip_padded.
  - intros H. apply has_inside_contains.
    destruct (strip_split s) as (pre & suf & Es & _).
    exists pre, suf. now rewrite <- H.
Qed.

Lemma respaced_no_match (kw s : Py.str) :
  In kw keywords -> respaced kw s -> Py.contains kw s = false.
Proof.
  intros Hk (E & Hne). destruct (Py.contains kw s) eqn:H; [|reflexivity].
  apply (spacing_decides kw s Hk E) in H. contradiction.
Qed.

Lemma foreign_no_match (kw s : Py.str) :
  foreign kw s -> Py.contains kw s = false.
Proof.
  unfold foreign. intros Hf. destruct (Py.contains kw s) eqn:H; [|reflexivity].
  apply has_inside_contains in H as (pre & suf & ->).
  assert (Hc : Py.contains (despace kw) (despace (pre ++ kw ++ suf)) = true).
  { apply has_inside_contains. exists (despace pre), (despace suf).
    now rewrite !despace_app. }
  congruence.
Qed.

(** White space around the whole keyword does no harm; white space
    missing or added about the hyphen does. *)
Example spacing_examples :
  Py.contains kw_0_4 (Py.lit " 0 - 4세 ") = true /\
  Py.contains kw_0_4 (Py.lit "0 -4세") = false /\
  Py.contains kw_5_9 (Py.lit "5  -  9세") = false /\
  Py.contains kw_10_14 (Py.lit "10 - 14 세") = false.
Proof. repeat split. Qed.

(** C10. The keywords are the literals with a space on each side of the
    hyphen (code point 32 around 45).  A label that writes a bracket with
    some spacing has the keyword inside exactly when it is the keyword once
    trimmed.  So when every column writes its bracket with another spacing,
    or is the label of something else, no column matches: every bracket
    count is 0 and so are the three estimates, whatever the cells hold. *)
Theorem keywords_need_spaced_labels (dt : dtype) (cols : list label)
  (cells : list float) (i : nat) (n : Py.str) :
  (forall c kw, In c cols -> In kw keywords ->
     respaced kw (str_of c) \/ foreign kw (str_of c)) ->
  let d := estimate dt cols i (n, cells) in
  (kw_0_4 = [48; 32; 45; 32; 52; 49464]%N /\
   kw_5_9 = [53; 32; 45; 32; 57; 49464]%N /\
   kw_10_14 = [49; 48; 32; 45; 32; 49; 52; 49464]%N /\
   kw_15_19 = [49; 53; 32; 45; 32; 49; 57; 49464]%N) /\
  (forall kw s, In kw keywords -> despace s = despace kw ->
     (Py.contains kw s = true <-> Py.strip s = kw)) /\
  (forall c kw, In c cols -> In kw keywords ->
     Py.contains kw (str_of c) = false) /\
  (bracket dt kw_0_4 cols cells = zero /\
   bracket dt kw_5_9 cols cells = zero /\
   bracket dt kw_10_14 cols cells = zero /\
   bracket dt kw_15_19 cols cells = zero) /\
  infant d = zero /\ elementary d = zero /\ adolescent d = zero.
Proof.
  intros H d.
  assert (Hno : forall c kw, In c cols -> In kw keywords ->
                  Py.contains kw (str_of c) = false).
  { intros c kw Hc Hk. destruct (H c kw Hc Hk) as [Hr|Hf].
    - now apply respaced_no_match.
    - now apply foreign_no_match. }
  assert (Hz : forall kw, In kw keywords -> get_sum dt [kw] cols cells = zero).
  { intros kw Hk. unfold get_sum. rewrite select_none; [now destruct dt|].
    intros c Hc. rewrite matches_one. now apply Hno. }
  assert (H0 := Hz kw_0_4 ltac:(simpl; auto)).
  assert (H5 := Hz kw_5_9 ltac:(simpl; auto)).
  assert (H10 := Hz kw_10_14 ltac:(simpl; auto)).
  assert (H15 := Hz kw_15_19 ltac:(simpl; auto)).
  split; [repeat split|]. split; [exact spacing_decides|].
  split; [exact Hno|]. split; [unfold bracket; auto|].
  subst d. unfold estimate. cbv zeta. cbn [infant elementary adolescent snd].
  rewrite H0, H5, H10, H15. repeat split.
Qed.

Lemma keywords_need_spaced_labels_witness :
  let cols := respaced_labels in
  let cells := [of_Z 10000; of_Z 10000; of_Z 10000; of_Z 10000; of_Z 10000;
                of_Z 100000] in
  let d := estimate Int64 cols 5 (Py.lit "강남구", cells) in
  (bracket Int64 kw_0_4 cols cells = zero /\
   bracket Int64 kw_5_9 cols cells = zero /\
   bracket Int64 kw_10_14 cols cells = zero /\
   bracket Int64 kw_15_19 cols cells = zero) /\
  infant d = zero /\ elementary d = zero /\ adolescent d = zero.
Proof.
  apply (keywords_need_spaced_labels Int64 respaced_labels).
  intros c kw Hc Hk.
  repeat (destruct Hc as [<-|Hc];
          [ repeat (destruct Hk as [<-|Hk];
                    [ first [ right; vm_compute; reflexivity
                            | left; split;
                              [ vm_compute; reflexivity
                              | intros E; vm_compute in E; discriminate ] ]
                    | ]);
            contradiction
          | ]).
  contradiction.
Defined.

(** The scenario of the specification as it is written there, with labels
    [0-4세] ... [15-19세]: one row, with estimates 0 rather than 14000,
    12000 and 12000. *)
Example compact_process :
  process PRICE_DATA_2024 ACADEMY_DATA compact
  = Ok [ {| region := Py.lit "강남구"; price := 8150;
            pop := compact_district; academy_count := 2578 |} ].
Proof. vm_compute. reflexivity. Qed.

(** ** Year column *)

Lemma existsb_year (y : Py.str) (df : Sheet) :
  mem (LStr y) [col_district; col_gender; col_age] = false ->
  existsb (Py.eqb y) (map str_of (columns df)) = true <-> labelled y df.
Proof.
  intros Hk. rewrite existsb_exists. unfold labelled, columns. split.
  - intros (s & Hs & E). apply eqb_eq in E. subst s.
    apply in_map_iff in Hs as (c & E & Hc).
    simpl in Hc. destruct Hc as [<-|[<-|[<-|Hc]]].
    + exfalso. subst y. vm_compute in Hk. discriminate.
    + exfalso. subst y. vm_compute in Hk. discriminate.
    + exfalso. subst y. vm_compute in Hk. discriminate.
    + eauto.
  - intros (c & Hc & E). exists y. split; [|apply eqb_refl].
    apply in_map_iff. exists c. split; [exact E|]. simpl. auto.
Qed.

Lemma mem_year (y : Py.str) (df : Sheet) :
  mem (LStr y) [col_district; col_gender; col_age] = false ->
  mem (LStr y) (columns df) = mem (LStr y) (years df).
Proof.
  unfold columns, mem. simpl. intros H.
  apply orb_false_iff in H as (H1 & H).
  apply orb_false_iff in H as (H2 & H).
  apply orb_false_iff in H as (H3 & _).
  now rewrite H1, H2, H3.
Qed.

(** Line 45 and the lookup of the column, for the year [z] written [y]. *)
Lemma year_found (y : Py.str) (z : Z) (df : Sheet) :
  y = Py.of_int z ->
  mem (LStr y) [col_district; col_gender; col_age] = false ->
  labelled y df ->
  exists c i,
    (if negb (mem (LStr y) (columns df))
     then n <- py_int y ;; Ok (LInt n) else Ok (LStr y)) = Ok c /\
    str_of c = y /\ position c (years df) = Some i.
Proof.
  intros -> Hk (c & Hc & E). rewrite mem_year by exact Hk.
  destruct (mem (LStr (Py.of_int z)) (years df)) eqn:Hm; simpl.
  - apply mem_In in Hm. apply position_Some in Hm as (i & Hi). eauto.
  - unfold py_int. rewrite to_int_of_int. simpl.
    apply str_of_numeral in E as [-> | ->].
    + apply mem_In in Hc. congruence.
    + apply position_Some in Hc as (i & Hi). eauto.
Qed.

Lemma year_missing (y : Py.str) (z : Z) (df : Sheet) :
  y = Py.of_int z ->
  mem (LStr y) [col_district; col_gender; col_age] = false ->
  ~ labelled y df ->
  (if negb (mem (LStr y) (columns df))
   then n <- py_int y ;; Ok (LInt n) else Ok (LStr y)) = Ok (LInt z) /\
  position (LInt z) (years df) = None.
Proof.
  intros -> Hk Hno. rewrite mem_year by exact Hk.
  destruct (mem (LStr (Py.of_int z)) (years df)) eqn:Hm; simpl.
  - exfalso. apply Hno. exists (LStr (Py.of_int z)). split; [|reflexivity].
    now apply mem_In.
  - unfold py_int. rewrite to_int_of_int. simpl. split; [reflexivity|].
    apply position_None. intros Hin. apply Hno. exists (LInt z). auto.
Qed.

Lemma values_column_position (df : Sheet) (c : label) (i : nat) :
  position c (years df) = Some i ->
  exists vals, values_column (filter_gender df) c = Ok vals.
Proof. unfold values_column. simpl. intros ->. eauto. Qed.

(** C4. With a column labelled 2024 the pipeline takes it as the year
    column; without one but with a column labelled 2023 it takes that one,
    and the lookup succeeds; with neither, loading fails with the KeyError
    of the missing column 2023. *)
Theorem year_column_selection (df : Sheet) :
  (labelled (Py.lit "2024") df ->
   exists c vals,
     target_year (columns (filter_gender df)) = Ok c /\
     str_of c = Py.lit "2024" /\
     values_column (filter_gender df) c = Ok vals) /\
  (~ labelled (Py.lit "2024") df -> labelled (Py.lit "2023") df ->
   exists c vals,
     target_year (columns (filter_gender df)) = Ok c /\
     str_of c = Py.lit "2023" /\
     values_column (filter_gender df) c = Ok vals) /\
  (~ labelled (Py.lit "2024") df -> ~ labelled (Py.lit "2023") df ->
   load_pivot (Workbook df) = Raise (KeyError (LInt 2023))).
Proof.
  change (columns (filter_gender df)) with (columns df).
  assert (K4 : mem (LStr (Py.lit "2024")) [col_district; col_gender; col_age]
               = false) by reflexivity.
  assert (K3 : mem (LStr (Py.lit "2023")) [col_district; col_gender; col_age]
               = false) by reflexivity.
  repeat split.
  - intros H4. unfold target_year.
    rewrite (proj2 (existsb_year _ df K4) H4).
    destruct (year_found (Py.lit "2024") 2024 df eq_refl K4 H4) as (c & i & Hc & Hs & Hi).
    destruct (values_column_position df c i Hi) as (vals & Hv).
    exists c, vals. auto.
  - intros H4 H3. unfold target_year.
    destruct (existsb _ _) eqn:E; [apply (existsb_year _ df K4) in E; tauto|].
    destruct (year_found (Py.lit "2023") 2023 df eq_refl K3 H3) as (c & i & Hc & Hs & Hi).
    destruct (values_column_position df c i Hi) as (vals & Hv).
    exists c, vals. auto.
  - intros H4 H3. unfold load_pivot, read_excel, bind at 1.
    change (columns (filter_gender df)) with (columns df).
    unfold target_year.
    destruct (existsb _ _) eqn:E; [apply (existsb_year _ df K4) in E; tauto|].
    destruct (year_missing (Py.lit "2023") 2023 df eq_refl K3 H3) as (Hy & Hp).
    rewrite Hy. unfold bind at 1. unfold pivot, values_column. simpl.
    now rewrite Hp.
Qed.

Lemma year_column_selection_witness :
  exists c vals,
    target_year (columns (filter_gender (headed [LInt 2022; LInt 2023])))
      = Ok c /\
    str_of c = Py.lit "2023" /\
    values_column (filter_gender (headed [LInt 2022; LInt 2023])) c = Ok vals.
Proof.
  apply (year_column_selection (headed [LInt 2022; LInt 2023])).
  - intros (c & [<-|[<-|[]]] & E); discriminate.
  - exists (LInt 2023). split; [simpl; auto | reflexivity].
Defined.

Example year_2024_text :
  target_year (columns (headed [LStr (Py.lit "2023"); LStr (Py.lit "2024")]))
  = Ok (LStr (Py.lit "2024")).
Proof. reflexivity. Qed.

Example year_2024_number :
  target_year (columns (headed [LInt 2023; LInt 2024])) = Ok (LInt 2024).
Proof. reflexivity. Qed.

Example year_none :
  load_and_process_data PRICE_DATA_2024 ACADEMY_DATA
    (Workbook (headed [LInt 2021; LInt 2022]))
  = Returns [] [KeyError (LInt 2023)].
Proof. reflexivity. Qed.

(** ** Errors *)

(** C3. No exception leaves [load_and_process_data]: when the body
    raises, the function shows the error and returns the empty frame;
    otherwise it returns the merged frame and shows nothing. *)
Theorem exceptions_caught (df_price df_academy : Table) (f : File) :
  (forall e, load_and_process_data df_price df_academy f <> Propagates e) /\
  (forall e, process df_price df_academy f = Raise e ->
             load_and_process_data df_price df_academy f = Returns [] [e]) /\
  (forall out, process df_price df_academy f = Ok out ->
               load_and_process_data df_price df_academy f = Returns out []).
Proof.
  unfold load_and_process_data.
  destruct (process df_price df_academy f) as [out|e].
  - repeat split; [discriminate | discriminate |].
    intros out' H. now injection H as ->.
  - assert (E : is_Exception e = true) by now destruct e.
    rewrite E. repeat split; [discriminate | | discriminate].
    intros e' H. now injection H as ->.
Qed.

Lemma exceptions_caught_witness :
  load_and_process_data PRICE_DATA_2024 ACADEMY_DATA Missing
  = Returns [] [FileNotFoundError].
Proof.
  apply (exceptions_caught PRICE_DATA_2024 ACADEMY_DATA Missing).
  reflexivity.
Defined.

Example duplicate_entries :
  load_and_process_data PRICE_DATA_2024 ACADEMY_DATA twice
  = Returns []
      [ValueError "Index contains duplicate entries, cannot reshape"].
Proof. reflexivity. Qed.

Example no_total_column :
  load_and_process_data PRICE_DATA_2024 ACADEMY_DATA untotalled
  = Returns [] [KeyError col_total].
Proof. reflexivity. Qed.

(** The age label 'price' is renamed 'price_y' in the first merge, where
    it meets the age label 'price_y'. *)
Example clashing_names :
  load_and_process_data PRICE_DATA_2024 ACADEMY_DATA clashing
  = Returns [] [MergeError].
Proof. reflexivity. Qed.

Example scenario_returns :
  load_and_process_data PRICE_DATA_2024 ACADEMY_DATA scenario
  = Returns scenario_out [].
Proof. vm_compute. reflexivity. Qed.

(** ** District names *)

(** C9. The index of the pivoted table holds the district names of the
    gender-total rows with the white space at both ends removed, and a
    district whose label is its name between runs of white space is joined
    with the reference tables under the name alone. *)
Theorem district_names_trimmed (df_price df_academy : Table) (f : File)
  (out : list Merged) :
  process df_price df_academy f = Ok out ->
  exists df p,
    f = Workbook df /\ load_pivot f = Ok p /\
    (forall k, In k (map fst (prows p)) ->
       exists r pre suf,
         In r (rows df) /\ gender r = total_gender /\
         district r = pre ++ k ++ suf /\
         Forall (fun c => Py.isspace c = true) pre /\
         Forall (fun c => Py.isspace c = true) suf /\
         Py.leading_space k = false /\
         Py.leading_space (rev k) = false) /\
    (forall r pre core suf pr ac,
       In r (rows df) -> gender r = total_gender ->
       district r = pre ++ core ++ suf ->
       Forall (fun c => Py.isspace c = true) pre ->
       Forall (fun c => Py.isspace c = true) suf ->
       Py.leading_space core = false ->
       Py.leading_space (rev core) = false ->
       In (core, pr) df_price -> In (core, ac) df_academy ->
       exists m, In m out /\ region m = core /\ price m = pr /\
                 academy_count m = ac /\ name (pop m) = core).
Proof.
  intros H. apply process_Ok in H as (p & i & Hp & _ & _ & ->).
  destruct (load_pivot_index f p Hp) as (df & -> & Hidx).
  exists df, p. repeat split; auto.
  - intros k Hk. apply Hidx in Hk as (r & Hr & Hg & ->).
    destruct (strip_split (district r)) as (pre & suf & E & H1 & H2 & H3 & H4).
    exists r, pre, suf. auto 10.
  - intros r pre core suf pr ac Hr Hg E Hpre Hsuf Hl Ht Hprice Hac.
    assert (Hk : In core (map fst (prows p))).
    { apply Hidx. exists r. repeat split; auto.
      rewrite E. symmetry. now apply strip_padded. }
    apply in_map_iff in Hk as (row0 & E0 & Hrow).
    exists {| region := core; price := pr;
              pop := estimate (pdtype p) (pcolumns p) i row0;
              academy_count := ac |}.
    simpl. repeat split; auto.
    apply In_merged. simpl. repeat split; auto.
    now apply in_map.
Qed.

Lemma district_names_trimmed_witness :
  exists df p,
    padded = Workbook df /\ load_pivot padded = Ok p /\
    (forall k, In k (map fst (prows p)) ->
       exists r pre suf,
         In r (rows df) /\ gender r = total_gender /\
         district r = pre ++ k ++ suf /\
         Forall (fun c => Py.isspace c = true) pre /\
         Forall (fun c => Py.isspace c = true) suf /\
         Py.leading_space k = false /\
         Py.leading_space (rev k) = false) /\
    (forall r pre core suf pr ac,
       In r (rows df) -> gender r = total_gender ->
       district r = pre ++ core ++ suf ->
       Forall (fun c => Py.isspace c = true) pre ->
       Forall (fun c => Py.isspace c = true) suf ->
       Py.leading_space core = false ->
       Py.leading_space (rev core) = false ->
       In (core, pr) PRICE_DATA_2024 -> In (core, ac) ACADEMY_DATA ->
       exists m, In m padded_out /\ region m = core /\ price m = pr /\
                 academy_count m = ac /\ name (pop m) = core).
Proof.
  apply (district_names_trimmed PRICE_DATA_2024 ACADEMY_DATA padded padded_out).
  vm_compute. reflexivity.
Defined.

Example padded_returns :
  load_and_process_data PRICE_DATA_2024 ACADEMY_DATA padded
  = Returns padded_out [].
Proof. vm_compute. reflexivity. Qed.

(** ** Merge *)

Lemma inb_In (d : Py.str) (l : list Py.str) : inb d l = true <-> In d l.
Proof.
  unfold inb. rewrite existsb_exists. split.
  - intros (x & Hx & E). apply eqb_eq in E. now subst.
  - intros H. exists d. split; [exact H | apply eqb_refl].
Qed.

Lemma count_NoDup (d : Py.str) (l : list Py.str) :
  NoDup l ->
  count_occ str_dec l d = if inb d l then 1%nat else 0%nat.
Proof.
  intros H. destruct (inb d l) eqn:E.
  - apply inb_In in E. now apply NoDup_count_occ'.
  - apply count_occ_not_In. intros Hin. apply inb_In in Hin. congruence.
Qed.

Lemma estimate_names (dt : dtype) (cols : list label) (i : nat)
  (rs : list (Py.str * list float)) :
  map name (map (estimate dt cols i) rs) = map fst rs.
Proof. rewrite map_map. reflexivity. Qed.

(** The keys of the two tables of the source are distinct. *)
Lemma reference_keys_distinct :
  NoDup (keys PRICE_DATA_2024) /\ NoDup (keys ACADEMY_DATA).
Proof.
  split; apply (NoDup_count_occ str_dec); intros x;
    match goal with
    | |- (count_occ _ ?l _ <= 1)%nat =>
      assert (H : forallb (fun y => (count_occ str_dec l y <=? 1)%nat) l = true)
        by (vm_compute; reflexivity);
      destruct (in_dec str_dec x l) as [Hin|Hin];
      [ rewrite forallb_forall in H; apply Nat.leb_le, H, Hin
      | rewrite (proj1 (count_occ_not_In str_dec l x) Hin); lia ]
    end.
Qed.

(** C2 as stated does not hold of the workbook [doubled]: its two
    spellings of one district become one name and two rows of the merged
    frame. *)
Lemma doubled_two_rows :
  ~ one_row_per_common_district
      (population_names doubled) (keys PRICE_DATA_2024) (keys ACADEMY_DATA)
      (returned (load_and_process_data PRICE_DATA_2024 ACADEMY_DATA doubled)).
Proof.
  intros H. specialize (H (Py.lit "강남구")). vm_compute in H. discriminate.
Qed.

(** C2, amended. When the pipeline completes, every row of the merged
    frame carries a district name found in all three sources, so a district
    missing from the price table has no row; and when the trimmed names of
    the population table are pairwise distinct (as the keys of the two
    dicts are), the frame has exactly one row per common name. *)
Theorem one_row_when_names_distinct (df_price df_academy : Table) (f : File)
  (out : list Merged) :
  process df_price df_academy f = Ok out ->
  (forall d, In d (map region out) ->
     In d (population_names f) /\ In d (keys df_price) /\
     In d (keys df_academy)) /\
  (NoDup (population_names f) -> NoDup (keys df_price) ->
   NoDup (keys df_academy) ->
   one_row_per_common_district
     (population_names f) (keys df_price) (keys df_academy) out).
Proof.
  intros H. apply process_Ok in H as (p & i & Hp & _ & _ & ->).
  unfold population_names, keys. rewrite Hp.
  assert (Hc := fun d => count_merged df_price df_academy
                           (map (estimate (pdtype p) (pcolumns p) i) (prows p))
                           d).
  setoid_rewrite estimate_names in Hc. split.
  - intros d Hd. apply (count_occ_In str_dec) in Hd. rewrite Hc in Hd.
    repeat split; apply (count_occ_In str_dec); nia.
  - intros Hn Hpr Hac d. rewrite Hc.
    rewrite (count_NoDup d _ Hn), (count_NoDup d _ Hpr), (count_NoDup d _ Hac).
    destruct (inb d (map fst (prows p))), (inb d (map fst df_price)),
      (inb d (map fst df_academy)); reflexivity.
Qed.

Lemma one_row_when_names_distinct_witness :
  (forall d, In d (map region scenario_out) ->
     In d (population_names scenario) /\ In d (keys PRICE_DATA_2024) /\
     In d (keys ACADEMY_DATA)) /\
  one_row_per_common_district
    (population_names scenario) (keys PRICE_DATA_2024) (keys ACADEMY_DATA)
    scenario_out.
Proof.
  destruct (one_row_when_names_distinct PRICE_DATA_2024 ACADEMY_DATA scenario
              scenario_out) as [H1 H2].
  { vm_compute. reflexivity. }
  split; [exact H1|]. apply H2.
  - assert (E : population_names scenario = [Py.lit "강남구"])
      by (vm_compute; reflexivity).
    rewrite E. constructor; [simpl; tauto | constructor].
  - apply reference_keys_distinct.
  - apply reference_keys_distinct.
Defined.

(** Nor of [untotalled], where the pipeline stops at the missing column
    of totals and returns no row for a district all three sources list. *)
Example untotalled_no_row :
  ~ one_row_per_common_district
      (population_names untotalled) (keys PRICE_DATA_2024)
      (keys ACADEMY_DATA)
      (returned
         (load_and_process_data PRICE_DATA_2024 ACADEMY_DATA untotalled)).
Proof.
  intros H. specialize (H (Py.lit "강남구")). vm_compute in H. discriminate.
Qed.

(** A district of the workbook that the price table does not list has no
    row in the merged frame. *)
Example outsider_dropped :
  map region
    (returned (load_and_process_data PRICE_DATA_2024 ACADEMY_DATA outsider))
  = [Py.lit "강남구"].
Proof. vm_compute. reflexivity. Qed.

(** ** Division by zero *)

Lemma is_zero_cases (t : float) :
  is_zero t = true -> exists s, t = S754_zero s.
Proof.
  unfold is_zero, SFeqb, zero.
  destruct t as [s|[|]| |[|] m e]; simpl; try discriminate. eauto.
Qed.

Lemma fdiv_zero_not_finite (x t : float) :
  is_zero t = true -> is_finite (fdiv x t) = false.
Proof.
  intros H. apply is_zero_cases in H as (s & ->).
  destruct x; reflexivity.
Qed.

Lemma fmul_not_finite (x y : float) :
  is_finite x = false -> is_finite (fmul x y) = false.
Proof.
  destruct x as [s|s| |s m e]; try discriminate; intros _;
    destruct y; reflexivity.
Qed.

Lemma fadd_not_finite_l (x y : float) :
  is_finite x = false -> is_finite (fadd x y) = false.
Proof.
  destruct x as [s|s| |s m e]; try discriminate; intros _;
    destruct y as [sy|sy| |sy my ey]; try reflexivity;
    destruct s, sy; reflexivity.
Qed.

Lemma ratio_not_finite (x t : float) :
  is_zero t = true -> is_finite (fmul (fdiv x t) f100) = false.
Proof. intros H. now apply fmul_not_finite, fdiv_zero_not_finite. Qed.

(** Whether the pipeline raises is decided by labels and names alone. *)
Lemma filter_shape (a b : list Row) :
  map shape a = map shape b ->
  map shape (filter (fun r => Py.eqb (gender r) total_gender) a)
  = map shape (filter (fun r => Py.eqb (gender r) total_gender) b).
Proof.
  revert b. induction a as [|r a IH]; intros [|r' b] H; try discriminate;
    [reflexivity|].
  simpl in H. injection H as Hd Hg Ha H. simpl.
  rewrite Hg. destruct (Py.eqb (gender r') total_gender); simpl; auto.
  unfold shape at 1 3. rewrite Hd, Hg, Ha. f_equal. exact (IH b H).
Qed.

Lemma shape_keys (a b : list Row) :
  map shape a = map shape b ->
  map (fun r => (district r, age r)) a = map (fun r => (district r, age r)) b
  /\ map age a = map age b /\ map district a = map district b.
Proof.
  revert b. induction a as [|r a IH]; intros [|r' b] H; try discriminate;
    [auto|].
  simpl in H. injection H as Hd Hg Ha H.
  destruct (IH b H) as (H1 & H2 & H3). simpl.
  rewrite Hd, Ha, H1, H2, H3. auto.
Qed.

Lemma same_shape_pivot (f f' : File) (p : Pivot) :
  same_shape f f' ->
  load_pivot f = Ok p ->
  exists p', load_pivot f' = Ok p' /\ pcolumns p' = pcolumns p /\
             map fst (prows p') = map fst (prows p).
Proof.
  intros Hs H. apply load_pivot_Ok in H as (a & c & p0 & -> & Hc & Hp & ->).
  destruct f' as [|b]; [contradiction|]. destruct Hs as (Hy & Hr).
  apply filter_shape in Hr. apply shape_keys in Hr as (Hk & Ha & Hd).
  unfold load_pivot, read_excel, bind at 1.
  change (columns (filter_gender b)) with (columns b).
  change (columns (filter_gender a)) with (columns a) in Hc.
  unfold columns in *. rewrite <- Hy, Hc. unfold bind at 1.
  revert Hp. generalize (dtype_of a c) (dtype_of b c). intros dta dtb Hp.
  unfold pivot, values_column in *. simpl in *.
  rewrite <- Hy, <- Hk, <- Ha, <- Hd.
  destruct (position c (years a)) as [j|]; [|discriminate]. simpl in *.
  destruct (duplicated _); [discriminate|]. injection Hp as <-.
  eexists. split; [reflexivity|]. simpl. split; [reflexivity|].
  rewrite !map_map. reflexivity.
Qed.

(** C7. Take a workbook on which the pipeline runs and change its counts
    at will: the pipeline still runs, and for every district whose total
    population is zero the four ratios are not finite (an infinity or NaN);
    the district keeps its row in the merged frame, with those values,
    whenever both reference tables list it. *)
Theorem zero_total_keeps_row (df_price df_academy : Table) (f f' : File)
  (out : list Merged) :
  process df_price df_academy f = Ok out ->
  same_shape f f' ->
  exists out' p' ds',
    process df_price df_academy f' = Ok out' /\
    load_pivot f' = Ok p' /\
    estimates p' = Ok ds' /\
    forall d, In d ds' -> is_zero (total_pop d) = true ->
      is_finite (ratio_infant d) = false /\
      is_finite (ratio_elem d) = false /\
      is_finite (ratio_adol d) = false /\
      is_finite (ratio_total_youth d) = false /\
      forall pr ac,
        In (name d, pr) df_price -> In (name d, ac) df_academy ->
        In {| region := name d; price := pr; pop := d; academy_count := ac |}
           out'.
Proof.
  intros H Hs. pose proof H as H0.
  apply process_Ok in H as (p & i & Hp & Hi & _ & _).
  destruct (process_clash _ _ f out p H0 Hp) as (Hc1 & Hc2).
  destruct (same_shape_pivot f f' p Hs Hp) as (p' & Hp' & Hc & _).
  rewrite <- Hc in Hi, Hc1, Hc2.
  assert (He : estimates p'
               = Ok (map (estimate (pdtype p') (pcolumns p') i) (prows p'))).
  { unfold estimates. now rewrite Hi. }
  exists (merge_academy
            (merge_price df_price
               (map (estimate (pdtype p') (pcolumns p') i) (prows p')))
            df_academy), p',
         (map (estimate (pdtype p') (pcolumns p') i) (prows p')).
  repeat split; auto.
  - now apply process_runs.
  - apply in_map_iff in H as (r & <- & _). now apply ratio_not_finite.
  - apply in_map_iff in H as (r & <- & _). now apply ratio_not_finite.
  - apply in_map_iff in H as (r & <- & _). now apply ratio_not_finite.
  - apply in_map_iff in H as (r & <- & _). simpl.
    now apply fadd_not_finite_l, fadd_not_finite_l, ratio_not_finite.
  - intros pr ac Hpr Hac. apply In_merged. simpl. auto.
Qed.

Lemma zero_total_keeps_row_witness :
  is_zero (total_pop deserted_district) = true /\
  is_finite (ratio_infant deserted_district) = false /\
  is_finite (ratio_elem deserted_district) = false /\
  is_finite (ratio_adol deserted_district) = false /\
  is_finite (ratio_total_youth deserted_district) = false /\
  In {| region := Py.lit "강남구"; price := 8150; pop := deserted_district;
        academy_count := 2578 |} deserted_out.
Proof.
  destruct (zero_total_keeps_row PRICE_DATA_2024 ACADEMY_DATA scenario
              deserted scenario_out)
    as (out' & p' & ds' & Hout & Hp & Hds & H).
  - vm_compute. reflexivity.
  - split; reflexivity.
  - vm_compute in Hp. injection Hp as <-.
    vm_compute in Hds. injection Hds as <-.
    vm_compute in Hout. injection Hout as <-.
    split; [reflexivity|].
    destruct (H deserted_district) as (H1 & H2 & H3 & H4 & H5).
    + left. vm_compute. reflexivity.
    + reflexivity.
    + repeat split; try assumption.
      apply (H5 8150%Z 2578%Z); vm_compute; auto.
Defined.

Example deserted_returns :
  load_and_process_data PRICE_DATA_2024 ACADEMY_DATA deserted
  = Returns deserted_out [].
Proof. vm_compute. reflexivity. Qed.

(** With nothing to divide, 0 / 0, the ratios are NaN and the row stays. *)
Example vacant_returns :
  load_and_process_data PRICE_DATA_2024 ACADEMY_DATA vacant
  = Returns [ {| region := Py.lit "강남구"; price := 8150;
                 pop := vacant_district; academy_count := 2578 |} ] [].
Proof. vm_compute. reflexivity. Qed.

(** * Further properties of the pipeline *)

(** ** The pivoted table *)

Lemma key_eqb_eq (k1 k2 : Py.str * label) : key_eqb k1 k2 = true <-> k1 = k2.
Proof.
  destruct k1 as [d1 a1], k2 as [d2 a2]. unfold key_eqb. simpl.
  rewrite andb_true_iff, eqb_eq, label_eqb_eq. split.
  - intros [-> ->]. reflexivity.
  - intros H. injection H as -> ->. auto.
Qed.

Lemma duplicated_tail (k : Py.str * label) (ks : list (Py.str * label)) :
  duplicated (k :: ks) = false -> ~ In k ks /\ duplicated ks = false.
Proof.
  simpl. intros H. apply orb_false_iff in H as (H1 & H2). split; [|exact H2].
  intros Hin. assert (E : existsb (key_eqb k) ks = true).
  { apply existsb_exists. exists k. split; [exact Hin | now apply key_eqb_eq]. }
  congruence.
Qed.

Lemma duplicated_NoDup (ks : list (Py.str * label)) :
  duplicated ks = false <-> NoDup ks.
Proof.
  induction ks as [|k ks IH]; split; intros H.
  - constructor.
  - reflexivity.
  - apply duplicated_tail in H as (H1 & H2). constructor; [exact H1|].
    now apply IH.
  - inversion H as [|? ? H1 H2]; subst. simpl.
    apply orb_false_iff. split; [|now apply IH].
    destruct (existsb (key_eqb k) ks) eqn:E; [|reflexivity].
    apply existsb_exists in E as (k' & Hin & E). apply key_eqb_eq in E.
    subst. contradiction.
Qed.

(** Without duplicates a cell of the pivot is the value of its row. *)
Lemma cell_of_row (rs : list Row) (v : Row -> float) (r : Row) :
  duplicated (map (fun r => (district r, age r)) rs) = false ->
  In r rs ->
  cell (map (fun r => (district r, age r)) rs) (map v rs)
       (district r) (age r) = v r.
Proof.
  induction rs as [|r0 rs IH]; intros Hd Hin; [contradiction|].
  apply duplicated_tail in Hd as (Hn & Hd). cbn [map cell].
  destruct (key_eqb (district r0, age r0) (district r, age r)) eqn:E.
  - apply key_eqb_eq in E. destruct Hin as [->|Hin]; [reflexivity|].
    exfalso. apply Hn. rewrite E.
    apply (in_map (fun r => (district r, age r))). exact Hin.
  - destruct Hin as [->|Hin].
    + assert (E' : key_eqb (district r, age r) (district r, age r) = true)
        by now apply key_eqb_eq.
      congruence.
    + now apply IH.
Qed.

(** A key without a row has an empty cell. *)
Lemma cell_absent (ks : list (Py.str * label)) (vs : list float)
  (d : Py.str) (a : label) :
  ~ In (d, a) ks -> cell ks vs d a = nan.
Proof.
  revert vs. induction ks as [|k ks IH]; intros vs Hn; [reflexivity|].
  destruct vs as [|v vs]; [reflexivity|]. simpl.
  destruct (key_eqb k (d, a)) eqn:E.
  - apply key_eqb_eq in E. subst. exfalso. apply Hn. now left.
  - apply IH. intros Hin. apply Hn. now right.
Qed.

Lemma nth_position {B} (g : label -> B) (c : label) (cols : list label)
  (j : nat) (dflt : B) :
  position c cols = Some j -> nth j (map g cols) dflt = g c.
Proof.
  revert j. induction cols as [|x cols IH]; intros j; simpl; [discriminate|].
  destruct (label_eqb c x) eqn:E.
  - apply label_eqb_eq in E. subst. intros H. now injection H as <-.
  - destruct (position c cols) as [j'|]; [|discriminate].
    simpl. intros H. injection H as <-. now apply IH.
Qed.

Lemma at_label_map (g : label -> float) (cols : list label) (c : label) :
  In c cols -> at_label cols (map g cols) c = g c.
Proof.
  intros H. apply position_Some in H as (j & Hj). unfold at_label.
  rewrite Hj. now apply nth_position.
Qed.

(** The stages of [load_pivot] on a workbook, with the year column named. *)
Lemma load_pivot_stages (df : Sheet) (p : Pivot) :
  load_pivot (Workbook df) = Ok p ->
  exists c i,
    target_year (columns df) = Ok c /\
    position c (years df) = Some i /\
    duplicated (pivot_keys df) = false /\
    pcolumns p = sort label_leb (nodup label_dec (map age (kept df))) /\
    prows p =
      map (fun d =>
             (Py.strip d,
              map (cell (pivot_keys df)
                        (map (fun r => nth i (counts r) nan) (kept df)) d)
                  (pcolumns p)))
          (sort Py.leb (nodup str_dec (map district (kept df)))).
Proof.
  intros H. apply load_pivot_Ok in H as (df' & c & p0 & E & Hc & Hp & ->).
  injection E as <-. apply pivot_Ok in Hp as (vals & Hv & Hd & Hcols & Hr).
  unfold values_column in Hv. simpl in Hv.
  destruct (position c (years df)) as [i|] eqn:Hi; [|discriminate].
  injection Hv as <-. exists c, i. repeat split; auto.
  simpl. rewrite Hr, map_map. reflexivity.
Qed.

Lemma cell_cases (rs : list Row) (v : Row -> float) (d : Py.str) (a : label) :
  cell (map (fun r => (district r, age r)) rs) (map v rs) d a = nan \/
  exists r, In r rs /\ district r = d /\ age r = a /\
            cell (map (fun r => (district r, age r)) rs) (map v rs) d a = v r.
Proof.
  induction rs as [|r0 rs IH]; [now left|]. cbn [map cell].
  destruct (key_eqb (district r0, age r0) (d, a)) eqn:E.
  - apply key_eqb_eq in E. injection E as Ed Ea. right. exists r0.
    repeat split; auto. now left.
  - destruct IH as [IH|(r & Hin & Hd & Ha & Hv)]; [now left|].
    right. exists r. repeat split; auto. now right.
Qed.

Lemma kept_In (df : Sheet) (r : Row) :
  In r (kept df) <-> In r (rows df) /\ gender r = total_gender.
Proof.
  unfold kept. simpl. rewrite filter_In, eqb_eq. reflexivity.
Qed.

(** X2. The pivot loses and invents nothing: the count of every kept row
    is the cell of its district (trimmed) under its age label, and every
    cell of the pivoted table is either empty (NaN) or the count of a kept
    row of that district and age label. *)
Theorem pivot_keeps_counts (df : Sheet) (p : Pivot) :
  load_pivot (Workbook df) = Ok p ->
  exists c i,
    target_year (columns df) = Ok c /\
    position c (years df) = Some i /\
    (forall r, In r (kept df) ->
       exists cells,
         In (Py.strip (district r), cells) (prows p) /\
         at_label (pcolumns p) cells (age r) = nth i (counts r) nan) /\
    (forall k cells a, In (k, cells) (prows p) -> In a (pcolumns p) ->
       at_label (pcolumns p) cells a = nan \/
       exists r, In r (kept df) /\ Py.strip (district r) = k /\ age r = a /\
                 at_label (pcolumns p) cells a = nth i (counts r) nan).
Proof.
  intros H. apply load_pivot_stages in H as (c & i & Hy & Hi & Hd & Hc & Hr).
  exists c, i. repeat split; auto.
  - intros r Hin. eexists. split.
    + rewrite Hr. apply in_map_iff. exists (district r). split; [reflexivity|].
      apply In_sort, nodup_In. now apply in_map.
    + rewrite at_label_map.
      * now apply (cell_of_row (kept df)).
      * rewrite Hc. apply In_sort, nodup_In. now apply in_map.
  - intros k cells a Hin Ha. rewrite Hr in Hin.
    apply in_map_iff in Hin as (d & E & _). injection E as <- <-.
    rewrite at_label_map by exact Ha.
    destruct (cell_cases (kept df) (fun r => nth i (counts r) nan) d a)
      as [E|(r & Hin & <- & <- & E)]; [now left|].
    right. exists r. auto.
Qed.

Lemma pivot_keeps_counts_witness :
  exists c i,
    target_year (columns headed_scenario) = Ok c /\
    position c (years headed_scenario) = Some i /\
    (forall r, In r (kept headed_scenario) ->
       exists cells,
         In (Py.strip (district r), cells) (prows scenario_pivot) /\
         at_label (pcolumns scenario_pivot) cells (age r)
         = nth i (counts r) nan) /\
    (forall k cells a, In (k, cells) (prows scenario_pivot) ->
       In a (pcolumns scenario_pivot) ->
       at_label (pcolumns scenario_pivot) cells a = nan \/
       exists r, In r (kept headed_scenario) /\
                 Py.strip (district r) = k /\ age r = a /\
                 at_label (pcolumns scenario_pivot) cells a
                 = nth i (counts r) nan).
Proof.
  apply (pivot_keeps_counts headed_scenario scenario_pivot).
  vm_compute. reflexivity.
Defined.

(** ** What the pipeline does not read *)

Lemma readings_split (i : nat) (l l' : list Row) :
  map (reading i) l = map (reading i) l' ->
  map (fun r => (district r, age r)) l = map (fun r => (district r, age r)) l'
  /\ map (fun r => nth i (counts r) nan) l
     = map (fun r => nth i (counts r) nan) l'
  /\ map age l = map age l' /\ map district l = map district l'.
Proof.
  revert l'. induction l as [|r l IH]; intros [|r' l'] H; try discriminate;
    [auto|].
  simpl in H. injection H as Hd Hg Ha Hv H.
  destruct (IH l' H) as (H1 & H2 & H3 & H4). simpl.
  rewrite Hd, Ha, Hv, H1, H2, H3, H4. auto.
Qed.

Lemma readings_kept (i : nat) (a b : Sheet) :
  map (reading i) (rows a) = map (reading i) (rows b) ->
  map (reading i) (kept a) = map (reading i) (kept b).
Proof.
  unfold kept. simpl. generalize (rows a) (rows b). clear a b.
  induction l as [|r l IH]; intros [|r' l'] H; try discriminate;
    [reflexivity|].
  simpl in H. injection H as Hd Hg Ha Hv H. simpl.
  rewrite Hg. destruct (Py.eqb (gender r') total_gender); simpl; auto.
  unfold reading at 1 3. unfold shape. rewrite Hd, Hg, Ha, Hv. f_equal.
  exact (IH l' H).
Qed.

(** [load_pivot] is a function of the header, of the dtype of the year
    column and of what it reads of the kept rows. *)
Lemma load_pivot_readings (a b : Sheet) :
  years a = years b ->
  (forall c i, target_year (columns a) = Ok c ->
               position c (years a) = Some i ->
               dtype_of a c = dtype_of b c /\
               map (reading i) (kept a) = map (reading i) (kept b)) ->
  load_pivot (Workbook a) = load_pivot (Workbook b).
Proof.
  intros Hy H. destruct a as [ys ra], b as [ys' rb]. simpl in Hy. subst ys'.
  unfold load_pivot. cbn [read_excel bind].
  set (cols := col_district :: col_gender :: col_age :: ys) in *.
  change (columns (filter_gender {| years := ys; rows := ra |})) with cols.
  change (columns (filter_gender {| years := ys; rows := rb |})) with cols.
  change (columns {| years := ys; rows := ra |}) with cols in H.
  destruct (target_year cols) as [c|e] eqn:Hc; [|reflexivity].
  cbn [bind]. cbn [years] in H.
  destruct (position c ys) as [i|] eqn:Hi.
  - destruct (H c i eq_refl Hi) as (Hdt & Hrd). rewrite Hdt.
    generalize (dtype_of {| years := ys; rows := rb |} c). intros dt.
    unfold pivot, values_column. cbn [years filter_gender rows]. rewrite Hi.
    apply readings_split in Hrd as (H1 & H2 & H3 & H4).
    unfold kept in *. cbn [filter_gender rows] in *. cbn [bind].
    now rewrite H1, H2, H3, H4.
  - generalize (dtype_of {| years := ys; rows := ra |} c)
               (dtype_of {| years := ys; rows := rb |} c).
    intros dta dtb. unfold pivot, values_column.
    cbn [years filter_gender rows]. rewrite Hi. reflexivity.
Qed.

Lemma same_pivot_same_outcome (df_price df_academy : Table) (f g : File) :
  load_pivot f = load_pivot g ->
  load_and_process_data df_price df_academy f
  = load_and_process_data df_price df_academy g.
Proof.
  intros H. unfold load_and_process_data, process. now rewrite H.
Qed.

Lemma kept_filter_gender (df : Sheet) : kept (filter_gender df) = kept df.
Proof.
  unfold kept. simpl. induction (rows df) as [|r l IH]; [reflexivity|].
  simpl. destruct (Py.eqb (gender r) total_gender) eqn:E; [|exact IH].
  simpl. rewrite E. now f_equal.
Qed.

(** The dtype of a column with the rows of the other genders set aside,
    when these hold whole numbers. *)
Lemma dtype_of_kept (df : Sheet) (c : label) (i : nat) :
  position c (years df) = Some i ->
  (forall r, In r (rows df) -> gender r <> total_gender ->
     int64_cell (nth i (counts r) nan) = true) ->
  dtype_of (filter_gender df) c = dtype_of df c.
Proof.
  intros Hi H. unfold dtype_of, values_column.
  cbn [years filter_gender rows]. rewrite Hi. unfold column_dtype.
  assert (E : forallb int64_cell
                (map (fun r => nth i (counts r) nan)
                     (filter (fun r => Py.eqb (gender r) total_gender)
                             (rows df)))
              = forallb int64_cell
                  (map (fun r => nth i (counts r) nan) (rows df))).
  { revert H. generalize (rows df). intros l.
    induction l as [|r l IH]; intros H; [reflexivity|].
    cbn [filter map forallb].
    destruct (Py.eqb (gender r) total_gender) eqn:E; cbn [map forallb].
    - rewrite IH by (intros r' Hr'; apply H; now right). reflexivity.
    - rewrite (H r).
      + apply IH. intros r' Hr'. apply H. now right.
      + now left.
      + intros E'. rewrite E', eqb_refl in E. discriminate. }
  now rewrite E.
Qed.

(** X3. Rows of another gender reach the result through the dtype of the
    year column only: when their counts in that column are whole numbers,
    removing them from the workbook leaves what [load_and_process_data]
    returns and shows unchanged. *)
Theorem other_genders_ignored (df_price df_academy : Table) (df : Sheet) :
  (forall c i r,
     target_year (columns df) = Ok c ->
     position c (years df) = Some i ->
     In r (rows df) -> gender r <> total_gender ->
     int64_cell (nth i (counts r) nan) = true) ->
  load_and_process_data df_price df_academy (Workbook (filter_gender df))
  = load_and_process_data df_price df_academy (Workbook df).
Proof.
  intros H. apply same_pivot_same_outcome, load_pivot_readings; [reflexivity|].
  intros c i Hc Hi. split; [|now rewrite kept_filter_gender].
  apply (dtype_of_kept df c i Hi). intros r. now apply (H c i r).
Qed.

Lemma other_genders_ignored_witness :
  load_and_process_data PRICE_DATA_2024 ACADEMY_DATA
    (Workbook (filter_gender headed_scenario))
  = load_and_process_data PRICE_DATA_2024 ACADEMY_DATA
      (Workbook headed_scenario).
Proof.
  apply (other_genders_ignored PRICE_DATA_2024 ACADEMY_DATA headed_scenario).
  intros c i r Hc Hi Hr _.
  vm_compute in Hc. injection Hc as <-.
  vm_compute in Hi. injection Hi as <-.
  vm_compute in Hr.
  repeat (destruct Hr as [<-|Hr]; [vm_compute; reflexivity|]).
  contradiction.
Defined.

Lemma readings_values (i : nat) (l l' : list Row) :
  map (reading i) l = map (reading i) l' ->
  map (fun r => nth i (counts r) nan) l
  = map (fun r => nth i (counts r) nan) l'.
Proof. intros H. now apply readings_split in H. Qed.

(** X4. Only the chosen year column is read: two workbooks with the same
    header and the same rows up to the counts of the other years give the
    same result. *)
Theorem other_years_ignored (df_price df_academy : Table) (a b : Sheet)
  (c : label) (i : nat) :
  years a = years b ->
  target_year (columns a) = Ok c ->
  position c (years a) = Some i ->
  map (reading i) (rows a) = map (reading i) (rows b) ->
  load_and_process_data df_price df_academy (Workbook a)
  = load_and_process_data df_price df_academy (Workbook b).
Proof.
  intros Hy Hc Hi H. apply same_pivot_same_outcome, load_pivot_readings;
    [exact Hy|].
  intros c' i' Hc' Hi'. rewrite Hc in Hc'. injection Hc' as <-.
  rewrite Hi in Hi'. injection Hi' as <-.
  split; [|now apply readings_kept].
  unfold dtype_of, values_column. rewrite <- Hy, Hi.
  now rewrite (readings_values i _ _ H).
Qed.

Lemma other_years_ignored_witness :
  load_and_process_data PRICE_DATA_2024 ACADEMY_DATA
    (Workbook (two_years 1 2))
  = load_and_process_data PRICE_DATA_2024 ACADEMY_DATA
      (Workbook (two_years 3 4)).
Proof.
  apply (other_years_ignored PRICE_DATA_2024 ACADEMY_DATA
           (two_years 1 2) (two_years 3 4) (LInt 2024) 1%nat);
    reflexivity.
Defined.

(** ** When the pipeline runs *)

Lemma position_In (c : label) (l : list label) (i : nat) :
  position c l = Some i -> In c l.
Proof.
  revert i. induction l as [|x l IH]; simpl; [discriminate|].
  intros i. destruct (label_eqb c x) eqn:E.
  - apply label_eqb_eq in E. auto.
  - destruct (position c l) as [j|]; [|discriminate]. right. now apply (IH j).
Qed.

Lemma target_year_reads (cols : list label) (c : label) :
  target_year cols = Ok c ->
  str_of c = Py.lit "2024" \/ str_of c = Py.lit "2023".
Proof.
  unfold target_year.
  destruct (existsb _ _);
    match goal with |- context [mem ?x cols] => destruct (mem x cols) end;
    simpl; intros H; injection H as <-; auto.
Qed.

(** With a year column the label of line 45 is found among the columns. *)
Lemma year_resolved (df : Sheet) :
  labelled (Py.lit "2024") df \/ labelled (Py.lit "2023") df ->
  exists c i, target_year (columns df) = Ok c /\
              position c (years df) = Some i.
Proof.
  assert (K4 : mem (LStr (Py.lit "2024")) [col_district; col_gender; col_age]
               = false) by reflexivity.
  assert (K3 : mem (LStr (Py.lit "2023")) [col_district; col_gender; col_age]
               = false) by reflexivity.
  intros H. unfold target_year.
  destruct (existsb (Py.eqb (Py.lit "2024")) (map str_of (columns df))) eqn:E.
  - apply (existsb_year _ df K4) in E.
    destruct (year_found (Py.lit "2024") 2024 df eq_refl K4 E)
      as (c & i & Hc & _ & Hi).
    eauto.
  - destruct H as [H|H].
    + apply (existsb_year _ df K4) in H. congruence.
    + destruct (year_found (Py.lit "2023") 2023 df eq_refl K3 H)
        as (c & i & Hc & _ & Hi).
      eauto.
Qed.

Lemma mem_sorted (c : label) (l : list label) :
  mem c (sort label_leb (nodup label_dec l)) = mem c l.
Proof.
  destruct (mem c l) eqn:E.
  - apply mem_In. apply In_sort, nodup_In. now apply mem_In.
  - destruct (mem c (sort label_leb (nodup label_dec l))) eqn:E';
      [|reflexivity].
    apply mem_In, In_sort, nodup_In, mem_In in E'. congruence.
Qed.

Lemma clash_sorted (l : list label) :
  price_clash (sort label_leb (nodup label_dec l)) = price_clash l /\
  academy_clash (sort label_leb (nodup label_dec l)) = academy_clash l.
Proof.
  unfold price_clash, academy_clash, renamed_meets.
  now rewrite !mem_sorted.
Qed.

(** X5. What it takes for the body of the pipeline to run on a workbook:
    a column for 2024 or 2023, no two kept rows with the same district and
    age label, a kept row with the age label of the total, and no age label
    that a merge renames into another one ('price' next to 'price_y',
    'region' next to 'region_y', 'academy_count' next to 'academy_count_x').
    These are needed and they suffice, whatever the counts; an age label
    that reads 'region' alone does not stop the pipeline. *)
Theorem runs_when (df_price df_academy : Table) (df : Sheet) :
  (exists out, process df_price df_academy (Workbook df) = Ok out) <->
  (labelled (Py.lit "2024") df \/ labelled (Py.lit "2023") df) /\
  NoDup (pivot_keys df) /\
  (exists r, In r (kept df) /\ age r = col_total) /\
  price_clash (map age (kept df)) = false /\
  academy_clash (map age (kept df)) = false.
Proof.
  split.
  - intros (out & H). pose proof H as H0.
    apply process_Ok in H as (p & i & Hp & Hi & _).
    destruct (process_clash _ _ _ _ p H0 Hp) as (Hc1 & Hc2).
    apply load_pivot_stages in Hp as (c & j & Hc & Hj & Hd & Hcols & _).
    rewrite Hcols in Hc1, Hc2.
    destruct (clash_sorted (map age (kept df))) as (E1 & E2).
    rewrite E1 in Hc1. rewrite E2 in Hc2.
    repeat split; auto.
    + apply position_In in Hj. apply target_year_reads in Hc as [E|E];
        [left | right]; exists c; auto.
    + now apply duplicated_NoDup.
    + apply position_In in Hi. rewrite Hcols in Hi.
      apply In_sort, nodup_In, in_map_iff in Hi as (r & E & Hin). eauto.
  - intros (Hy & Hd & (r & Hr & Ha) & Hc1 & Hc2).
    destruct (year_resolved df Hy) as (c & i & Hc & Hi).
    apply duplicated_NoDup in Hd. unfold pivot_keys, kept in Hd.
    assert (Hp : exists p, load_pivot (Workbook df) = Ok p /\
                   pcolumns p
                   = sort label_leb (nodup label_dec (map age (kept df)))).
    { unfold load_pivot. cbn [read_excel bind].
      change (columns (filter_gender df)) with (columns df). rewrite Hc.
      cbn [bind]. generalize (dtype_of df c). intros dt.
      unfold pivot, values_column. cbn [years filter_gender].
      rewrite Hi. cbn [bind]. rewrite Hd. cbn [bind].
      eexists. split; reflexivity. }
    destruct Hp as (p & Hp & Hcols).
    assert (Ht : In col_total (pcolumns p)).
    { rewrite Hcols. apply In_sort, nodup_In. rewrite <- Ha.
      now apply in_map. }
    apply position_Some in Ht as (k & Hk).
    destruct (clash_sorted (map age (kept df))) as (E1 & E2).
    eexists. apply process_runs with (p := p) (i := k); auto.
    + now rewrite Hcols, E1.
    + now rewrite Hcols, E2.
Qed.

Lemma runs_when_witness :
  exists out,
    process PRICE_DATA_2024 ACADEMY_DATA (Workbook headed_scenario) = Ok out.
Proof.
  apply (runs_when PRICE_DATA_2024 ACADEMY_DATA headed_scenario).
  split; [|split; [|split; [|split]]].
  - right. exists (LStr (Py.lit "2023")). split; [now left | reflexivity].
  - apply duplicated_NoDup. reflexivity.
  - exists (row "강남구" "계" "계" 100000). split; [now left | reflexivity].
  - reflexivity.
  - reflexivity.
Defined.

(** An age label that reads "region" does not stop the pipeline. *)
Example regional_returns :
  map region
    (returned (load_and_process_data PRICE_DATA_2024 ACADEMY_DATA regional))
  = [Py.lit "강남구"].
Proof. vm_compute. reflexivity. Qed.

(** ** Totals *)

Lemma ratio_of_nan (x : float) : fmul (fdiv x nan) f100 = nan.
Proof. destruct x; reflexivity. Qed.

(** X6. A district without a row for the total has an empty total
    (NaN), and all four of its ratios are NaN; the pipeline does not fail on
    it. *)
Theorem missing_total_is_nan (df : Sheet) (p : Pivot) (ds : list District)
  (d0 : Py.str) :
  load_pivot (Workbook df) = Ok p ->
  estimates p = Ok ds ->
  In d0 (map district (kept df)) ->
  (forall r, In r (kept df) -> district r = d0 -> age r <> col_total) ->
  exists d, In d ds /\ name d = Py.strip d0 /\
            total_pop d = nan /\ ratio_infant d = nan /\
            ratio_elem d = nan /\ ratio_adol d = nan /\
            ratio_total_youth d = nan.
Proof.
  intros Hp Hds Hd0 Hno.
  apply load_pivot_stages in Hp as (c & i & _ & _ & _ & Hc & Hr).
  apply estimates_rows in Hds as (k & Hk & ->).
  set (vals := map (fun r => nth i (counts r) nan) (kept df)) in *.
  set (cells := map (cell (pivot_keys df) vals d0) (pcolumns p)).
  exists (estimate (pdtype p) (pcolumns p) k (Py.strip d0, cells)).
  assert (Ht : nth k cells nan = nan).
  { unfold cells. rewrite (nth_position _ col_total _ k nan Hk).
    apply cell_absent. unfold pivot_keys. intros Hin.
    apply in_map_iff in Hin as (r & E & Hin). injection E as Ed Ea.
    now apply (Hno r). }
  split.
  - apply in_map. rewrite Hr. apply in_map_iff. exists d0.
    split; [reflexivity|]. now apply In_sort, nodup_In.
  - unfold estimate. cbn [name total_pop ratio_infant ratio_elem ratio_adol
                          ratio_total_youth fst snd].
    rewrite Ht, !ratio_of_nan. repeat split.
Qed.

Lemma missing_total_is_nan_witness :
  exists d, In d (map (estimate Float64 (pcolumns partial_pivot) 1)
                      (prows partial_pivot)) /\
            name d = Py.strip (Py.lit "서초구") /\
            total_pop d = nan /\ ratio_infant d = nan /\
            ratio_elem d = nan /\ ratio_adol d = nan /\
            ratio_total_youth d = nan.
Proof.
  apply (missing_total_is_nan partial partial_pivot).
  - vm_compute. reflexivity.
  - reflexivity.
  - vm_compute. auto.
  - intros r Hr E. vm_compute in Hr.
    destruct Hr as [<-|[<-|[<-|[]]]]; try discriminate.
Defined.

(** ** Signs of the ratios *)

Lemma div_core_nonneg (m1 m2 : positive) (e1 e2 : Z) :
  (0 <= fst (fst (SFdiv_core_binary prec emax (Zpos m1) e1 (Zpos m2) e2)))%Z.
Proof.
  unfold SFdiv_core_binary.
  set (s := (e1 - e2 - _)%Z).
  set (m' := match s with Z0 => Zpos m1 | Zpos _ => Z.shiftl (Zpos m1) s
                      | Zneg _ => 0%Z end).
  assert (Hm : (0 <= m')%Z).
  { unfold m'. destruct s; try lia. apply Z.shiftl_nonneg. lia. }
  pose proof (Z_div_mod m' (Zpos m2) ltac:(lia)) as H.
  destruct (Z.div_eucl m' (Zpos m2)) as [q r]. simpl. nia.
Qed.

Lemma fdiv_nonneg (x t : float) :
  nonneg x = true -> positive_finite t = true -> nonneg (fdiv x t) = true.
Proof.
  intros Hx Ht. apply nonneg_cases in Hx. apply nonneg_cases.
  destruct t as [| | |[|] mt et]; try discriminate.
  destruct x as [s|s| |s mx ex]; simpl in *; subst; try easy.
  change (xorb false false) with false.
  pose proof (div_core_nonneg mx mt ex et) as Hq.
  destruct (SFdiv_core_binary prec emax (Z.pos mx) ex (Z.pos mt) et)
    as [[mz ez] lz].
  simpl in Hq.
  pose proof (binary_round_aux_sign false mz ez lz Hq) as H.
  destruct (binary_round_aux prec emax false mz ez lz); auto.
Qed.

Lemma ratio_nonneg (x t : float) :
  nonneg x = true -> positive_finite t = true ->
  nonneg (fmul (fdiv x t) f100) = true.
Proof. intros Hx Ht. now apply fmul_nonneg, fdiv_nonneg. Qed.

(** X7. For a district whose counts are not negative (a missing count
    aside), whose total is positive and finite and, in a table of whole
    numbers, whose bracket sums are below 2^63, the four ratios are not
    negative. *)
Theorem ratios_nonneg (p : Pivot) (ds : list District) (d : District) :
  estimates p = Ok ds ->
  In d ds ->
  Forall count_ok (brackets d) ->
  (pdtype p = Int64 ->
   forall kw, In kw keywords ->
     (exact_count kw (pcolumns p) (brackets d) < 2 ^ 63)%Z) ->
  positive_finite (total_pop d) = true ->
  nonneg (ratio_infant d) = true /\
  nonneg (ratio_elem d) = true /\
  nonneg (ratio_adol d) = true /\
  nonneg (ratio_total_youth d) = true.
Proof.
  intros H Hd Hc Hlt Ht. apply estimates_rows in H as (i & _ & ->).
  apply in_map_iff in Hd as (r & <- & _). simpl in *.
  assert (R : forall x, nonneg x = true ->
                         nonneg (fmul (fdiv x (nth i (snd r) nan)) f100) = true)
    by (intros x Hx; now apply ratio_nonneg).
  assert (Hb : forall kw, In kw keywords ->
                 nonneg (get_sum (pdtype p) [kw] (pcolumns p) (snd r)) = true).
  { intros kw Hk. apply bracket_nonneg; [exact Hc|]. intros E.
    now apply Hlt. }
  repeat split;
    repeat (first [ apply R | apply fadd_nonneg | apply fmul_nonneg ]);
    apply Hb; simpl; auto.
Qed.

Lemma ratios_nonneg_witness :
  nonneg (ratio_infant scenario_district) = true /\
  nonneg (ratio_elem scenario_district) = true /\
  nonneg (ratio_adol scenario_district) = true /\
  nonneg (ratio_total_youth scenario_district) = true.
Proof.
  apply (ratios_nonneg scenario_pivot scenario_districts scenario_district).
  - vm_compute. reflexivity.
  - now left.
  - repeat constructor.
  - intros _ kw Hk.
    repeat (destruct Hk as [<-|Hk]; [vm_compute; reflexivity|]).
    contradiction.
  - reflexivity.
Defined.

(** ** Sizes of the joins *)

Section JoinSize.

Context {A B C : Type}.
Variables (ka : A -> Py.str) (kb : B -> Py.str) (mk : A -> B -> C).

Lemma filter_split_length (P : B -> bool) (lb : list B) :
  (List.length (filter P lb) + List.length (filter (fun b => negb (P b)) lb)
   = List.length lb)%nat.
Proof.
  induction lb as [|b lb IH]; [reflexivity|]. simpl.
  destruct (P b); simpl; lia.
Qed.

Lemma filter_other_key (k k' : Py.str) (lb : list B) :
  k' <> k ->
  filter (fun b => Py.eqb k' (kb b))
         (filter (fun b => negb (Py.eqb k (kb b))) lb)
  = filter (fun b => Py.eqb k' (kb b)) lb.
Proof.
  intros Hk. induction lb as [|b lb IH]; [reflexivity|]. simpl.
  destruct (Py.eqb k (kb b)) eqn:E; simpl.
  - apply eqb_eq in E. destruct (Py.eqb k' (kb b)) eqn:E'; [|exact IH].
    apply eqb_eq in E'. congruence.
  - now rewrite IH.
Qed.

Lemma join_skip (k : Py.str) (la : list A) (lb : list B) :
  (forall a, In a la -> ka a <> k) ->
  join ka kb mk la lb
  = join ka kb mk la (filter (fun b => negb (Py.eqb k (kb b))) lb).
Proof.
  unfold join. induction la as [|a la IH]; intros H; [reflexivity|]. simpl.
  rewrite filter_other_key by (apply H; now left).
  rewrite IH by (intros a' Ha'; apply H; now right). reflexivity.
Qed.

(** With distinct keys on the left no right row is used twice. *)
Lemma join_length_left (la : list A) (lb : list B) :
  NoDup (map ka la) ->
  (List.length (join ka kb mk la lb) <= List.length lb)%nat.
Proof.
  revert lb. induction la as [|a la IH]; intros lb Hnd; simpl; [lia|].
  inversion Hnd as [|? ? Hn Hnd']; subst.
  change (flat_map _ la) with (join ka kb mk la lb).
  rewrite (join_skip (ka a)).
  2:{ intros a' Ha' E. apply Hn. rewrite <- E. now apply in_map. }
  rewrite length_app, length_map.
  specialize (IH (filter (fun b => negb (Py.eqb (ka a) (kb b))) lb) Hnd').
  pose proof (filter_split_length (fun b => Py.eqb (ka a) (kb b)) lb). lia.
Qed.

(** With distinct keys on the right no left row is used twice. *)
Lemma join_length_right (la : list A) (lb : list B) :
  NoDup (map kb lb) ->
  (List.length (join ka kb mk la lb) <= List.length la)%nat.
Proof.
  intros Hnd. unfold join. induction la as [|a la IH]; simpl; [lia|].
  rewrite length_app, length_map, (count_matches kb).
  pose proof (proj1 (NoDup_count_occ str_dec (map kb lb)) Hnd (ka a)). lia.
Qed.

End JoinSize.

Lemma count_out (df_price df_academy : Table) (f : File)
  (out : list Merged) :
  process df_price df_academy f = Ok out ->
  forall d,
    count_occ str_dec (map region out) d
    = (count_occ str_dec (keys df_price) d
       * count_occ str_dec (population_names f) d
       * count_occ str_dec (keys df_academy) d)%nat.
Proof.
  intros H d. apply process_Ok in H as (p & i & Hp & _ & _ & ->).
  unfold population_names, keys. rewrite Hp.
  rewrite (count_merged df_price df_academy
             (map (estimate (pdtype p) (pcolumns p) i) (prows p)) d).
  now rewrite estimate_names.
Qed.

Lemma one_row_of_distinct (df_price df_academy : Table) (f : File)
  (out : list Merged) :
  process df_price df_academy f = Ok out ->
  NoDup (population_names f) -> NoDup (keys df_price) ->
  NoDup (keys df_academy) ->
  one_row_per_common_district
    (population_names f) (keys df_price) (keys df_academy) out.
Proof.
  intros H Hn Hp Ha d. rewrite (count_out _ _ _ _ H).
  rewrite (count_NoDup d _ Hn), (count_NoDup d _ Hp), (count_NoDup d _ Ha).
  destruct (inb d (population_names f)), (inb d (keys df_price)),
    (inb d (keys df_academy)); reflexivity.
Qed.

(** X8. With the keys of the two tables distinct, as those of a dict are,
    the merged frame has no more rows than the pivoted table; when the
    trimmed district names are distinct too, it has no more rows than
    either table. *)
Theorem row_count_bound (df_price df_academy : Table) (f : File)
  (out : list Merged) :
  process df_price df_academy f = Ok out ->
  NoDup (keys df_price) ->
  NoDup (keys df_academy) ->
  (List.length out <= List.length (population_names f))%nat /\
  (NoDup (population_names f) ->
   (List.length out <= List.length df_price)%nat /\
   (List.length out <= List.length df_academy)%nat).
Proof.
  intros H Hp Ha. pose proof (one_row_of_distinct _ _ _ _ H) as Hone.
  apply process_Ok in H as (p & i & Hl & _ & _ & ->).
  unfold population_names in *. rewrite Hl in *.
  set (ds := map (estimate (pdtype p) (pcolumns p) i) (prows p)).
  assert (H1 : (List.length (merge_price df_price ds)
                <= List.length (prows p))%nat).
  { unfold merge_price. etransitivity; [apply join_length_left; exact Hp|].
    unfold ds. now rewrite length_map. }
  assert (H2 : (List.length (merge_academy (merge_price df_price ds) df_academy)
                <= List.length (merge_price df_price ds))%nat).
  { unfold merge_academy. apply join_length_right. exact Ha. }
  split; [rewrite length_map; lia|].
  intros Hn. specialize (Hone Hn Hp Ha).
  unfold one_row_per_common_district in Hone. fold ds in Hone.
  set (out := merge_academy (merge_price df_price ds) df_academy) in *.
  assert (Hnd : NoDup (map region out)).
  { apply (NoDup_count_occ str_dec). intros d. rewrite (Hone d).
    destruct (_ && _); lia. }
  assert (Hin : forall d, In d (map region out) ->
                          In d (keys df_price) /\ In d (keys df_academy)).
  { intros d Hd. apply (count_occ_In str_dec) in Hd. rewrite (Hone d) in Hd.
    destruct (inb d (map fst (prows p))) eqn:E1; [|simpl in Hd; lia].
    destruct (inb d (keys df_price)) eqn:E2; [|simpl in Hd; lia].
    destruct (inb d (keys df_academy)) eqn:E3; [|simpl in Hd; lia].
    split; now apply inb_In. }
  rewrite <- (length_map region out).
  rewrite <- (length_map fst df_price), <- (length_map fst df_academy).
  split; apply NoDup_incl_length; auto; intros d Hd; now apply Hin.
Qed.

Lemma row_count_bound_witness :
  (List.length scenario_out <= List.length (population_names scenario))%nat /\
  (NoDup (population_names scenario) ->
   (List.length scenario_out <= List.length PRICE_DATA_2024)%nat /\
   (List.length scenario_out <= List.length ACADEMY_DATA)%nat).
Proof.
  apply (row_count_bound PRICE_DATA_2024 ACADEMY_DATA scenario scenario_out).
  - vm_compute. reflexivity.
  - apply reference_keys_distinct.
  - apply reference_keys_distinct.
Defined.

(** ** Rows of the merged frame *)

Lemma value_unique (t : Table) (k : Py.str) (v v' : Z) :
  NoDup (keys t) -> In (k, v) t -> In (k, v') t -> v = v'.
Proof.
  unfold keys. induction t as [|[k0 v0] t IH]; intros Hnd H H';
    [contradiction|].
  simpl in Hnd. inversion Hnd as [|? ? Hn Hnd']; subst.
  destruct H as [E|H], H' as [E'|H'].
  - congruence.
  - injection E as -> ->. exfalso. apply Hn.
    apply (in_map fst) in H'. exact H'.
  - injection E' as -> ->. exfalso. apply Hn.
    apply (in_map fst) in H. exact H.
  - now apply IH.
Qed.

(** X9. A row of the merged frame never mixes districts: its population
    part is a district of the pivoted table of that very name, and its price
    and academy count are the entries of the two tables under that name. *)
Theorem rows_not_mixed (df_price df_academy : Table) (f : File)
  (out : list Merged) (m : Merged) :
  process df_price df_academy f = Ok out ->
  In m out ->
  NoDup (keys df_price) ->
  NoDup (keys df_academy) ->
  exists p ds,
    load_pivot f = Ok p /\ estimates p = Ok ds /\
    In (pop m) ds /\ name (pop m) = region m /\
    In (region m, price m) df_price /\
    In (region m, academy_count m) df_academy /\
    (forall v, In (region m, v) df_price -> v = price m) /\
    (forall v, In (region m, v) df_academy -> v = academy_count m).
Proof.
  intros H Hm Hp Ha. apply process_Ok in H as (p & i & Hl & _ & He & ->).
  apply In_merged in Hm as (H1 & H2 & H3 & H4).
  exists p, (map (estimate (pdtype p) (pcolumns p) i) (prows p)).
  repeat split; auto.
  - intros v Hv. now apply (value_unique df_price (region m)).
  - intros v Hv. now apply (value_unique df_academy (region m)).
Qed.

Lemma rows_not_mixed_witness :
  exists p ds,
    load_pivot scenario = Ok p /\ estimates p = Ok ds /\
    In (pop scenario_row) ds /\ name (pop scenario_row) = region scenario_row /\
    In (region scenario_row, price scenario_row) PRICE_DATA_2024 /\
    In (region scenario_row, academy_count scenario_row) ACADEMY_DATA /\
    (forall v, In (region scenario_row, v) PRICE_DATA_2024 ->
               v = price scenario_row) /\
    (forall v, In (region scenario_row, v) ACADEMY_DATA ->
               v = academy_count scenario_row).
Proof.
  apply (rows_not_mixed PRICE_DATA_2024 ACADEMY_DATA scenario scenario_out).
  - vm_compute. reflexivity.
  - now left.
  - apply reference_keys_distinct.
  - apply reference_keys_distinct.
Defined.

Lemma population_names_workbook (df : Sheet) (p : Pivot) :
  load_pivot (Workbook df) = Ok p ->
  population_names (Workbook df)
  = map Py.strip (sort Py.leb (nodup str_dec (map district (kept df)))).
Proof.
  intros H. unfold population_names. rewrite H.
  apply load_pivot_stages in H as (c & i & _ & _ & _ & _ & Hr).
  rewrite Hr, map_map. reflexivity.
Qed.

(** X10. When no two district labels of the kept rows become the same name
    by trimming, the merged frame has exactly one row for each district that
    the workbook and both tables list, and no other row. *)
Theorem distinct_trims_one_row (df_price df_academy : Table) (df : Sheet)
  (out : list Merged) :
  process df_price df_academy (Workbook df) = Ok out ->
  (forall r r', In r (kept df) -> In r' (kept df) ->
     Py.strip (district r) = Py.strip (district r') ->
     district r = district r') ->
  NoDup (keys df_price) ->
  NoDup (keys df_academy) ->
  one_row_per_common_district
    (population_names (Workbook df)) (keys df_price) (keys df_academy) out.
Proof.
  intros H Hinj Hp Ha. apply one_row_of_distinct; auto.
  pose proof H as H'. apply process_Ok in H' as (p & _ & Hl & _).
  rewrite (population_names_workbook df p Hl).
  apply NoDup_map_NoDup_ForallPairs; [|apply NoDup_sort, NoDup_nodup].
  intros d d' Hd Hd'.
  apply In_sort, nodup_In, in_map_iff in Hd as (r & <- & Hr).
  apply In_sort, nodup_In, in_map_iff in Hd' as (r' & <- & Hr').
  now apply Hinj.
Qed.

Lemma distinct_trims_one_row_witness :
  one_row_per_common_district
    (population_names (Workbook headed_scenario)) (keys PRICE_DATA_2024)
    (keys ACADEMY_DATA) scenario_out.
Proof.
  apply (distinct_trims_one_row PRICE_DATA_2024 ACADEMY_DATA headed_scenario
           scenario_out).
  - vm_compute. reflexivity.
  - intros r r' Hr Hr' _. vm_compute in Hr, Hr'.
    repeat (destruct Hr as [<-|Hr]; [|]); try contradiction;
      repeat (destruct Hr' as [<-|Hr']; [|]); try contradiction; reflexivity.
  - apply reference_keys_distinct.
  - apply reference_keys_distinct.
Defined.

(** ** The tables of the source *)

Lemma same_districts (d : Py.str) :
  inb d (keys PRICE_DATA_2024) = inb d (keys ACADEMY_DATA).
Proof.
  assert (H1 : forallb (fun k => inb k (keys ACADEMY_DATA))
                       (keys PRICE_DATA_2024) = true)
    by (vm_compute; reflexivity).
  assert (H2 : forallb (fun k => inb k (keys PRICE_DATA_2024))
                       (keys ACADEMY_DATA) = true)
    by (vm_compute; reflexivity).
  rewrite forallb_forall in H1, H2.
  destruct (inb d (keys PRICE_DATA_2024)) eqn:E1,
           (inb d (keys ACADEMY_DATA)) eqn:E2; try reflexivity.
  - apply inb_In, H1 in E1. congruence.
  - apply inb_In, H2 in E2. congruence.
Qed.

Lemma count_app (f : File) (out : list Merged) (d : Py.str) :
  process PRICE_DATA_2024 ACADEMY_DATA f = Ok out ->
  count_occ str_dec (map region out) d
  = if inb d (keys PRICE_DATA_2024)
    then count_occ str_dec (population_names f) d
    else 0%nat.
Proof.
  intros H. rewrite (count_out _ _ _ _ H).
  destruct reference_keys_distinct as (Hp & Ha).
  rewrite (count_NoDup d _ Hp), (count_NoDup d _ Ha), <- same_districts.
  destruct (inb d (keys PRICE_DATA_2024)); lia.
Qed.

(** X11. With the two tables of the source the second merge drops nothing:
    the merged frame has as many rows for a district as the pivoted table
    has, if the price table lists the district, and none otherwise. *)
Theorem academy_join_keeps_all (f : File) (out : list Merged) (d : Py.str) :
  process PRICE_DATA_2024 ACADEMY_DATA f = Ok out ->
  count_occ str_dec (map region out) d
  = if inb d (keys PRICE_DATA_2024)
    then count_occ str_dec (population_names f) d
    else 0%nat.
Proof. apply count_app. Qed.

Lemma academy_join_keeps_all_witness :
  count_occ str_dec (map region doubled_out) (Py.lit "강남구")
  = if inb (Py.lit "강남구") (keys PRICE_DATA_2024)
    then count_occ str_dec (population_names doubled) (Py.lit "강남구")
    else 0%nat.
Proof.
  apply (academy_join_keeps_all doubled).
  vm_compute. reflexivity.
Defined.

(** ** Order of the rows *)

Section JoinOrder.

Context {A B C : Type}.
Variables (ka : A -> Py.str) (kb : B -> Py.str) (mk : A -> B -> C).
Variables (va : A -> Z) (vc : C -> Z).
Hypothesis vc_mk : forall a b, vc (mk a b) = va a.

Lemma join_values (la : list A) (lb : list B) (z : Z) :
  In z (map vc (join ka kb mk la lb)) -> In z (map va la).
Proof.
  intros H. apply in_map_iff in H as (c & <- & Hc).
  apply In_join in Hc as (a & b & Ha & _ & _ & ->).
  rewrite vc_mk. now apply in_map.
Qed.

(** A join keeps the left rows in their order. *)
Lemma join_sorted (la : list A) (lb : list B) :
  StronglySorted Z.ge (map va la) ->
  StronglySorted Z.ge (map vc (join ka kb mk la lb)).
Proof.
  induction la as [|a la IH]; intros Hs; [constructor|].
  simpl in Hs. apply StronglySorted_inv in Hs as (Hs & Hall).
  specialize (IH Hs). rewrite Forall_forall in Hall.
  unfold join. simpl. fold (join ka kb mk la lb). rewrite map_app, map_map.
  induction (filter (fun b => Py.eqb (ka a) (kb b)) lb) as [|b l IHl];
    [exact IH|].
  simpl. constructor; [exact IHl|].
  apply Forall_forall. intros z Hz. rewrite vc_mk.
  apply in_app_or in Hz as [Hz|Hz].
  - apply in_map_iff in Hz as (b' & <- & _). rewrite vc_mk. lia.
  - apply Hall. now apply join_values in Hz.
Qed.

End JoinOrder.

(** X12. Both merges keep the order of the price table: when that table is
    written in non-increasing order of price, as the one of the source is,
    so is the merged frame. *)
Theorem frame_in_price_order (df_price df_academy : Table) (f : File)
  (out : list Merged) :
  process df_price df_academy f = Ok out ->
  StronglySorted Z.ge (map snd df_price) ->
  StronglySorted Z.ge (map price out).
Proof.
  intros H Hs. apply process_Ok in H as (p & i & _ & _ & _ & ->).
  unfold merge_academy.
  apply (join_sorted _ _ _ (fun m : Py.str * Z * District => snd (fst m)));
    [reflexivity|].
  unfold merge_price. apply (join_sorted _ _ _ snd); [reflexivity | exact Hs].
Qed.

Lemma price_table_sorted : StronglySorted Z.ge (map snd PRICE_DATA_2024).
Proof.
  unfold PRICE_DATA_2024. cbn [map snd].
  repeat (apply SSorted_cons; [|repeat (apply Forall_cons; [lia|]);
                                 apply Forall_nil]).
  apply SSorted_nil.
Qed.

Lemma frame_in_price_order_witness :
  StronglySorted Z.ge (map price doubled_out).
Proof.
  apply (frame_in_price_order PRICE_DATA_2024 ACADEMY_DATA doubled).
  - vm_compute. reflexivity.
  - apply price_table_sorted.
Defined.

(** ** The script *)

Lemma out_nonempty (f : File) (out : list Merged) :
  process PRICE_DATA_2024 ACADEMY_DATA f = Ok out ->
  out <> [] <->
  exists d, In d (population_names f) /\ In d (keys PRICE_DATA_2024).
Proof.
  intros H. split.
  - destruct out as [|m out]; [congruence|]. intros _. exists (region m).
    pose proof (count_app f _ (region m) H) as Hc.
    assert (Hpos : (0 < count_occ str_dec (map region (m :: out)) (region m))%nat).
    { apply count_occ_In. now left. }
    destruct (inb (region m) (keys PRICE_DATA_2024)) eqn:E; [|lia].
    split; [|now apply inb_In]. apply (count_occ_In str_dec). lia.
  - intros (d & Hd & Hp) ->. pose proof (count_app f _ d H) as Hc.
    apply inb_In in Hp. rewrite Hp in Hc.
    apply (count_occ_In str_dec) in Hd. simpl in Hc. lia.
Qed.

(** X13. The script reaches the choice of line 109 on every file.  It
    draws the tabs exactly when the body ran and some district of the
    pivoted table is one of the price table; when the body ran and no
    district is, it shows the failure message of line 207 though nothing
    was raised; and when the body raised, it shows that error and then the
    failure message. *)
Theorem tabs_or_failure (f : File) :
  (forall e, script f <> Aborted e) /\
  ((exists df, script f = Session [] (Tabs df)) <->
   (exists out, process PRICE_DATA_2024 ACADEMY_DATA f = Ok out) /\
   (exists d, In d (population_names f) /\ In d (keys PRICE_DATA_2024))) /\
  (script f = Session [] LoadFailure <->
   (exists out, process PRICE_DATA_2024 ACADEMY_DATA f = Ok out) /\
   (forall d, In d (population_names f) -> ~ In d (keys PRICE_DATA_2024))) /\
  (forall e, script f = Session [e] LoadFailure <->
             process PRICE_DATA_2024 ACADEMY_DATA f = Raise e).
Proof.
  unfold script, app_load, load_and_process_data.
  destruct (process PRICE_DATA_2024 ACADEMY_DATA f) as [out|e] eqn:H.
  - pose proof (out_nonempty f out H) as Hne. unfold page_of.
    split; [discriminate|]. split; [|split].
    + split.
      * intros (df & E). split; [eauto|]. apply Hne.
        destruct out; [discriminate E | discriminate].
      * intros (_ & Hd). apply Hne in Hd.
        destruct out as [|m out]; [congruence|]. simpl. eauto.
    + split.
      * intros E. split; [eauto|]. intros d Hd Hp.
        destruct out as [|m out]; [|discriminate E].
        assert (Hx : @nil Merged <> []) by (apply Hne; eauto). congruence.
      * intros (_ & Hno). destruct out as [|m out]; [reflexivity|].
        exfalso. assert (Hx : m :: out <> []) by discriminate.
        apply Hne in Hx as (d & Hd & Hp). now apply (Hno d).
    + intros e. split; [|discriminate]. destruct out; discriminate.
  - assert (E : is_Exception e = true) by now destruct e.
    rewrite E. simpl. split; [discriminate|]. split; [|split].
    + split; [intros (df & Hdf); discriminate|].
      intros ((out & Ho) & _). discriminate.
    + split; [discriminate|]. intros ((out & Ho) & _). discriminate.
    + intros e'. split; intros He; now injection He as ->.
Qed.

(** ** From the workbook to the frame *)

(** X15. The total shown for a district is the workbook's: for a kept row
    with the age label of the total whose trimmed district name both tables
    list, the merged frame has a row of that name, with the entries of the
    tables, whose total_pop is the count of that row in the chosen year. *)
Theorem total_is_workbook_total (df_price df_academy : Table) (df : Sheet)
  (out : list Merged) (r : Row) (pr ac : Z) :
  process df_price df_academy (Workbook df) = Ok out ->
  In r (kept df) ->
  age r = col_total ->
  In (Py.strip (district r), pr) df_price ->
  In (Py.strip (district r), ac) df_academy ->
  exists c i m,
    target_year (columns df) = Ok c /\
    position c (years df) = Some i /\
    In m out /\
    region m = Py.strip (district r) /\
    price m = pr /\ academy_count m = ac /\
    total_pop (pop m) = nth i (counts r) nan.
Proof.
  intros H Hr Ha Hp Hac.
  apply process_Ok in H as (p & k & Hl & Hk & _ & ->).
  apply load_pivot_stages in Hl as (c & i & Hc & Hi & Hd & Hcols & Hrows).
  set (vals := map (fun r => nth i (counts r) nan) (kept df)) in *.
  set (cells := map (cell (pivot_keys df) vals (district r)) (pcolumns p)).
  exists c, i,
    {| region := Py.strip (district r); price := pr;
       pop := estimate (pdtype p) (pcolumns p) k
                (Py.strip (district r), cells);
       academy_count := ac |}.
  repeat split; auto.
  - apply In_merged. simpl. repeat split; auto.
    apply in_map. rewrite Hrows. apply in_map_iff. exists (district r).
    split; [reflexivity|]. apply In_sort, nodup_In. now apply in_map.
  - simpl. unfold cells.
    rewrite (nth_position _ col_total _ k nan Hk), <- Ha.
    now apply (cell_of_row (kept df)).
Qed.

Lemma total_is_workbook_total_witness :
  exists c i m,
    target_year (columns headed_scenario) = Ok c /\
    position c (years headed_scenario) = Some i /\
    In m scenario_out /\
    region m = Py.strip (district (row "강남구" "계" "계" 100000)) /\
    price m = 8150%Z /\ academy_count m = 2578%Z /\
    total_pop (pop m) = nth i (counts (row "강남구" "계" "계" 100000)) nan.
Proof.
  apply (total_is_workbook_total PRICE_DATA_2024 ACADEMY_DATA headed_scenario
           scenario_out (row "강남구" "계" "계" 100000) 8150 2578).
  - vm_compute. reflexivity.
  - vm_compute. auto.
  - reflexivity.
  - vm_compute. auto.
  - vm_compute. auto.
Defined.

(** ** The matching rule *)

(** X16. [get_sum] takes a column for a keyword exactly when the text of
    its label has the keyword somewhere inside it, whatever stands before
    and after. *)
Theorem column_matches_substring (keyword_list : list Py.str)
  (cols : list label) (c : label) :
  In c (target_cols keyword_list cols) <->
  In c cols /\
  exists k pre suf, In k keyword_list /\ str_of c = pre ++ k ++ suf.
Proof.
  unfold target_cols, matches. rewrite filter_In, existsb_exists.
  split.
  - intros (Hc & k & Hk & H). split; [exact Hc|].
    apply contains_spec in H as (pre & suf & E). eauto.
  - intros (Hc & k & pre & suf & Hk & E). split; [exact Hc|].
    exists k. split; [exact Hk|]. apply contains_spec. eauto.
Qed.
